(** * A shallow embedding of the COVID analytics API and its analytic front end

    The development follows [src/api.py] (parameterised warehouse queries
    behind a bounded least-recently-used memo) and the page of
    [src/analytics.py], which consumes the demographics, trend and view
    endpoints. The estimators of the page (ARIMA, StandardScaler, KMeans)
    work on floating-point data and stay abstract.

    Layout:
    - [Py]        the few Python notions the code relies on (truthiness,
                  dicts in insertion order, exceptions);
    - [Lru]       [functools.lru_cache] in its bounded variant;
    - [Api]       the endpoints of [src/api.py];
    - [Calendar]  timestamps, proleptic Gregorian dates, [pd.date_range];
    - [Analytics] the forecasting branch of [src/analytics.py];
    - [Props], [Claims], [Samples]  the vocabulary of the properties and the
                  data of the examples;
    - [Cursor]    the rows of [fetch_query] from the cursor's tuples;
    - [Routes]    the seven warehouse endpoints as one request type, and
                  the HTTP exchange the page sees;
    - [Streamlit] the county list and the two buttons of the page;
    then the lemmas: the memo, the endpoints, the forecast, the requests,
    the cursor rows, the page. *)

From stdpp Require Import base option list strings.
From Stdlib Require Import ZArith Lia Sorted Ascii.

Local Open Scope string_scope.
Local Open Scope list_scope.
Local Open Scope nat_scope.

(* ===================================================================== *)
(** ** Values that travel between the API and the warehouse *)
(* ===================================================================== *)

(** A value bound to a [%s] placeholder: the endpoints bind strings (county,
    dates, category) and one integer (the row limit). *)
Inductive Param :=
| PStr (s : string)
| PInt (n : Z).

#[global] Instance Param_eq_dec : EqDecision Param.
Proof. solve_decision. Defined.

(** The pair handed to [fetch_query_cached]: query text and parameter tuple.
    It is also the memo key, compared by value as Python compares a tuple
    of [str] and [int]. *)
Definition Signature : Type := string * list Param.

(** A scalar of a result row: NULL, text, or a decimal number
    [mantissa * 10 ^ exponent]. *)
Inductive Cell :=
| CNull
| CStr (s : string)
| CNum (mantissa exponent : Z).

(** [dict(zip(columns, row))]: column name to scalar, in column order. *)
Definition Row : Type := list (string * Cell).
Definition ResultSet : Type := list Row.

(** What the connector answers for a statement: the fetched rows, or [None]
    when [connect] or [execute] raises. *)
Definition Warehouse : Type := Signature → option ResultSet.

(* ===================================================================== *)
(** ** Python notions *)
(* ===================================================================== *)

Module Py.

(** [if s:] for an optional string argument ([Query(None)]): [None] and
    the empty string are both falsy. *)
Definition truthy (s : option string) : bool :=
  match s with
  | None => false
  | Some v => negb (String.eqb v "")
  end.

(** [repr] of a list of plain strings, as an f-string prints it. *)
Definition repr_str (s : string) : string := "'" +:+ s +:+ "'".

Fixpoint join (sep : string) (l : list string) : string :=
  match l with
  | [] => ""
  | [x] => x
  | x :: rest => x +:+ sep +:+ join sep rest
  end.

Definition repr_list (l : list string) : string :=
  "[" +:+ join ", " (map repr_str l) +:+ "]".

(** [needle in haystack] on strings. *)
Fixpoint contains (needle haystack : string) : bool :=
  String.prefix needle haystack
  || match haystack with
     | EmptyString => false
     | String _ rest => contains needle rest
     end.

Inductive Exn :=
| UpstreamError      (* raised by the Snowflake connector *)
| IndexError         (* [result[0]] on an empty list *)
| KeyError.          (* [d[k]] for a key that [d] lacks *)

(** A [dict] with string keys, in insertion order. *)
Fixpoint dict_get {A} (d : list (string * A)) (k : string) : option A :=
  match d with
  | [] => None
  | (k', v) :: rest => if String.eqb k' k then Some v else dict_get rest k
  end.

Definition dict_keys {A} (d : list (string * A)) : list string := d.*1.

(** [x in l] for a list of strings. *)
Definition str_in (x : string) (l : list string) : bool :=
  existsb (String.eqb x) l.

Inductive Outcome (A : Type) :=
| Returned (a : A)
| Raised (e : Exn).
Arguments Returned {A} a.
Arguments Raised {A} e.

End Py.
Export Py.

(* ===================================================================== *)
(** ** The process state: one memo and the statements sent so far *)
(* ===================================================================== *)

(** State of the wrapper that [functools.lru_cache] builds. The circular
    linked list is kept as [entries], from the link after [root] (the
    oldest) to the link before [root] (the newest); the dict that indexes
    the links is the key set of that list. *)
Record LruCache := mkLru {
  entries : list (Signature * ResultSet);
  hits : nat;
  misses : nat;
  full : bool
}.

Record World := mkWorld {
  cache : LruCache;
  executed : list Signature      (* every run of the body of [fetch_query] *)
}.

Definition empty_cache : LruCache := mkLru [] 0 0 false.
Definition initial_world : World := mkWorld empty_cache [].

(** Computations that read and write the process state and may raise. *)
Definition M (A : Type) : Type := World → Outcome A * World.

#[global] Instance M_ret : MRet M := λ A a w, (Returned a, w).
#[global] Instance M_bind : MBind M := λ A B f m w,
  match m w with
  | (Returned a, w') => f a w'
  | (Raised e, w') => (Raised e, w')
  end.

Definition raise {A} (e : Exn) : M A := λ w, (Raised e, w).

(* ===================================================================== *)
(** ** [functools.lru_cache(maxsize)] for a positive [maxsize] *)
(* ===================================================================== *)

Module Lru.

(** [cache_get(key)] *)
Fixpoint cache_get (key : Signature) (l : list (Signature * ResultSet))
  : option ResultSet :=
  match l with
  | [] => None
  | (k, v) :: rest => if decide (k = key) then Some v else cache_get key rest
  end.

(** Unlinking the link that carries [key]. *)
Fixpoint unlink (key : Signature) (l : list (Signature * ResultSet))
  : list (Signature * ResultSet) :=
  match l with
  | [] => []
  | (k, v) :: rest => if decide (k = key) then rest else (k, v) :: unlink key rest
  end.

Definition keys (c : LruCache) : list Signature := (entries c).*1.

Definition set_cache (w : World) (c : LruCache) : World :=
  mkWorld c (executed w).

(** The wrapper returned by [lru_cache(maxsize)(user_function)].

    - hit: the link moves in front of [root] (newest position),
      [hits += 1], the stored result is returned;
    - miss: [misses += 1], then [user_function] runs; an exception leaves
      the memo as it is; otherwise, if the key appeared meanwhile nothing
      is stored, if the memo is [full] the oldest link is dropped and the
      new one linked as newest, else the new link is appended and [full]
      is recomputed as [cache_len() >= maxsize]. *)
Definition wrapper (maxsize : nat) (user_function : Signature → M ResultSet)
    (key : Signature) : M ResultSet := λ w,
  let c := cache w in
  match cache_get key (entries c) with
  | Some result =>
      (Returned result,
       set_cache w (mkLru (unlink key (entries c) ++ [(key, result)])
                          (S (hits c)) (misses c) (full c)))
  | None =>
      let w1 := set_cache w (mkLru (entries c) (hits c) (S (misses c)) (full c)) in
      match user_function key w1 with
      | (Raised e, w2) => (Raised e, w2)
      | (Returned result, w2) =>
          let c2 := cache w2 in
          match cache_get key (entries c2) with
          | Some _ => (Returned result, w2)
          | None =>
              if full c2 then
                (Returned result,
                 set_cache w2 (mkLru (tail (entries c2) ++ [(key, result)])
                                     (hits c2) (misses c2) (full c2)))
              else
                let l := entries c2 ++ [(key, result)] in
                (Returned result,
                 set_cache w2 (mkLru l (hits c2) (misses c2)
                                     (Nat.leb maxsize (length l))))
          end
      end
  end.

End Lru.

(* ===================================================================== *)
(** ** [src/api.py] *)
(* ===================================================================== *)

Module Api.

(** Declared at the top of the module and used nowhere. *)
Definition CACHE_SIZE : nat := 128.

(** The size given to the decorator of [fetch_query_cached]. *)
Definition maxsize : nat := 512.

(** Body shared by [fetch_query] and [fetch_query_cached]: connect, run the
    statement with its parameters, fetch all rows. *)
Definition fetch_query (wh : Warehouse) (sig : Signature) : M ResultSet := λ w,
  let w' := mkWorld (cache w) (executed w ++ [sig]) in
  match wh sig with
  | Some rows => (Returned rows, w')
  | None => (Raised UpstreamError, w')
  end.

Definition fetch_query_cached (wh : Warehouse) (query : string)
    (params : list Param) : M ResultSet :=
  Lru.wrapper maxsize (fetch_query wh) (query, params).

(** What an endpoint hands back to FastAPI. *)
Inductive Response :=
| RError (msg : string)          (* [{"error": msg}] *)
| RList (rows : ResultSet)
| RRecord (row : Row).

(** [result[0]] *)
Definition first (result : ResultSet) : M Response :=
  match result with
  | r :: _ => mret (RRecord r)
  | [] => raise IndexError
  end.

(** [if v: query += clause; params.append(v)] *)
Definition and_eq (clause : string) (v : option string) (qp : Signature)
  : Signature :=
  if truthy v then (qp.1 +:+ clause, qp.2 ++ [PStr (default "" v)]) else qp.

(* --- Endpoint 1: demographics --- *)
Definition get_demographics_query (county : option string) : Signature :=
  and_eq " AND COUNTY_NAME = %s" county
    ("SELECT * FROM CALIFORNIA_COVID_ANALYTICS.RAW.CA_COUNTY_DEMOGRAPHICS_2020 WHERE 1=1", []).

Definition get_demographics (wh : Warehouse) (county : option string)
  : M Response :=
  let '(query, params) := get_demographics_query county in
  result ← fetch_query_cached wh query params;
  if bool_decide (result = []) then mret (RError "No demographics found")
  else if negb (truthy county) then mret (RList result) else first result.

(* --- Endpoint 2: cases --- *)
Definition get_cases_query (date county : option string) : Signature :=
  and_eq " AND DATE = %s" date
    (and_eq " AND AREA = %s" county
       ("SELECT * FROM CALIFORNIA_COVID_ANALYTICS.ANALYTICS.CASES WHERE 1=1", [])).

Definition get_cases (wh : Warehouse) (date county : option string)
  : M Response :=
  let '(query, params) := get_cases_query date county in
  result ← fetch_query_cached wh query params;
  if bool_decide (result = []) then mret (RError "No cases found")
  else if negb (truthy county && truthy date) then mret (RList result)
       else first result.

(* --- Endpoint 3: cases demographics --- *)
Definition get_cases_demographics_query (date category : option string)
  : Signature :=
  and_eq " AND REPORT_DATE = %s" date
    (and_eq " AND DEMOGRAPHIC_CATEGORY = %s" category
       ("SELECT * FROM CALIFORNIA_COVID_ANALYTICS.ANALYTICS.CASES_DEMOGRAPHICS WHERE 1=1", [])).

Definition get_cases_demographics (wh : Warehouse)
    (date category : option string) : M Response :=
  let '(query, params) := get_cases_demographics_query date category in
  result ← fetch_query_cached wh query params;
  if bool_decide (result = []) then mret (RError "No cases demographics found")
  else if negb (truthy category && truthy date) then mret (RList result)
       else first result.

(* --- Endpoint 4: hospitals --- *)
Definition get_hospitals_query (date county : option string) : Signature :=
  and_eq " AND TODAYS_DATE = %s" date
    (and_eq " AND COUNTY = %s" county
       ("SELECT * FROM CALIFORNIA_COVID_ANALYTICS.ANALYTICS.HOSPITALS_BY_COUNTY WHERE 1=1", [])).

Definition get_hospitals (wh : Warehouse) (date county : option string)
  : M Response :=
  let '(query, params) := get_hospitals_query date county in
  result ← fetch_query_cached wh query params;
  if bool_decide (result = []) then mret (RError "No hospital data found")
  else if negb (truthy county && truthy date) then mret (RList result)
       else first result.

(* --- Endpoint 5: cases + demographics (analytics view) --- *)
Definition get_cases_demographics_view_query
    (county date start_date end_date : option string) : Signature :=
  let qp :=
    and_eq " AND DATE = %s" date
      (and_eq " AND AREA = %s" county
         ("SELECT * FROM CALIFORNIA_COVID_ANALYTICS.ANALYTICS.CA_CASES_DEMOGRAPHICS_VIEW WHERE 1=1", [])) in
  if truthy start_date && truthy end_date
  then (qp.1 +:+ " AND DATE BETWEEN %s AND %s",
        qp.2 ++ [PStr (default "" start_date); PStr (default "" end_date)])
  else qp.

Definition get_cases_demographics_view (wh : Warehouse)
    (county date start_date end_date : option string) : M Response :=
  let '(query, params) :=
    get_cases_demographics_view_query county date start_date end_date in
  result ← fetch_query_cached wh query params;
  if bool_decide (result = [])
  then mret (RError "No data found with given filters")
  else if truthy county
          && (truthy date
              || (truthy start_date && truthy end_date
                  && bool_decide (start_date = end_date)))
       then first result
       else mret (RList result).

(* --- Endpoint 6: summary by county --- *)
Definition get_cases_summary_by_county_query
    (start_date end_date metric : option string) (limit : option Z)
  : Signature :=
  let metric := default "cases_per_100k" metric in
  let limit := default 10%Z limit in
  let query := "SELECT AREA, AVG(" +:+ metric +:+ ") AS avg_" +:+ metric
               +:+ " FROM CALIFORNIA_COVID_ANALYTICS.ANALYTICS.CA_CASES_DEMOGRAPHICS_AGG WHERE 1=1" in
  let qp :=
    and_eq " AND DATE <= %s" end_date
      (and_eq " AND DATE >= %s" start_date (query, [])) in
  (qp.1 +:+ " GROUP BY AREA ORDER BY avg_" +:+ metric +:+ " DESC LIMIT %s",
   qp.2 ++ [PInt limit]).

Definition get_cases_summary_by_county (wh : Warehouse)
    (start_date end_date metric : option string) (limit : option Z)
  : M Response :=
  let '(query, params) :=
    get_cases_summary_by_county_query start_date end_date metric limit in
  result ← fetch_query_cached wh query params;
  mret (RList result).

(* --- Endpoint 7: summary by trend --- *)
Definition valid_metrics : list (string * string) :=
  [("cases", "TOTAL_CASES"); ("deaths", "TOTAL_DEATHS");
   ("cases_p_k", "CASES_PER_100K"); ("deaths_p_k", "DEATHS_PER_100K")].

Definition invalid_metric_message (metric : string) : string :=
  "Invalid metric '" +:+ metric +:+ "'. Choose from "
  +:+ repr_list (dict_keys valid_metrics).

(** [valid_metrics[metric]] *)
Definition valid_metrics_at (metric : string) : M string :=
  match dict_get valid_metrics metric with
  | Some column => mret column
  | None => raise KeyError
  end.

Definition select_clause (metric : option string) : M string :=
  if truthy metric then
    let m := default "" metric in
    if str_in m ["cases"; "deaths"]
    then column ← valid_metrics_at m;
         mret ("SUM(" +:+ column +:+ ") AS total_" +:+ m)
    else column ← valid_metrics_at m;
         mret ("AVG(" +:+ column +:+ ") AS " +:+ column)
  else
    mret ("SUM(TOTAL_CASES) AS TOTAL_CASES, SUM(TOTAL_DEATHS) AS TOTAL_DEATHS, "
          +:+ "AVG(CASES_PER_100K) AS CASES_PER_100K, AVG(DEATHS_PER_100K) AS DEATHS_PER_100K").

Definition date_expr (interval : option string) : string :=
  if String.eqb (default "day" interval) "month"
  then "DATE_TRUNC('month', DATE)" else "DATE".

Definition get_trend (wh : Warehouse) (county metric interval : option string)
  : M Response :=
  if truthy metric && negb (bool_decide (is_Some (dict_get valid_metrics (default "" metric))))
  then mret (RError (invalid_metric_message (default "" metric)))
  else
    select ← select_clause metric;
    let query := "SELECT " +:+ date_expr interval +:+ " AS period, " +:+ select
                 +:+ " FROM CALIFORNIA_COVID_ANALYTICS.ANALYTICS.CA_TREND_MV WHERE 1=1" in
    let '(query, params) := and_eq " AND AREA = %s" county (query, []) in
    result ← fetch_query_cached wh query params;
    mret (RList result).

End Api.

(* ===================================================================== *)
(** ** Timestamps and the civil calendar *)
(* ===================================================================== *)

Module Calendar.

(** A [pandas.Timestamp]: nanoseconds since 1970-01-01T00:00. *)
Definition Timestamp : Type := Z.

(** [pd.Timedelta(days=1)] *)
Definition DAY : Z := 86400000000000.

(** Day number (days since 1970-01-01) of a proleptic Gregorian date. *)
Definition days_from_civil (y m d : Z) : Z :=
  let y' := if (m <=? 2)%Z then (y - 1)%Z else y in
  let era := (y' / 400)%Z in
  let yoe := (y' - era * 400)%Z in
  let mp := if (m >? 2)%Z then (m - 3)%Z else (m + 9)%Z in
  let doy := ((153 * mp + 2) / 5 + d - 1)%Z in
  let doe := (yoe * 365 + yoe / 4 - yoe / 100 + doy)%Z in
  (era * 146097 + doe - 719468)%Z.

(** Year, month and day of a day number. *)
Definition civil_from_days (z : Z) : Z * Z * Z :=
  let z' := (z + 719468)%Z in
  let era := (z' / 146097)%Z in
  let doe := (z' - era * 146097)%Z in
  let yoe := ((doe - doe / 1460 + doe / 36524 - doe / 146096) / 365)%Z in
  let doy := (doe - (365 * yoe + yoe / 4 - yoe / 100))%Z in
  let mp := ((5 * doy + 2) / 153)%Z in
  let d := (doy - (153 * mp + 2) / 5 + 1)%Z in
  let m := if (mp <? 10)%Z then (mp + 3)%Z else (mp - 9)%Z in
  let y := (yoe + era * 400)%Z in
  (if (m <=? 2)%Z then (y + 1)%Z else y, m, d).

(** Midnight of a civil date. *)
Definition midnight (y m d : Z) : Timestamp := (days_from_civil y m d * DAY)%Z.

(** A period produced by [DATE_TRUNC('month', DATE)]: midnight of the first
    day of a month. *)
Definition is_month_start (t : Timestamp) : bool :=
  (t mod DAY =? 0)%Z && ((civil_from_days (t / DAY)).2 =? 1)%Z.

(** The first day of the month after the month of [t]. *)
Definition next_month_start (t : Timestamp) : Timestamp :=
  let '(y, m, _) := civil_from_days (t / DAY) in
  if (m =? 12)%Z then midnight (y + 1) 1 1 else midnight y (m + 1) 1.

(** [pd.date_range(start, periods=n)] with the default daily frequency. *)
Definition date_range (start : Timestamp) (periods : nat) : list Timestamp :=
  map (λ i, (start + Z.of_nat i * DAY)%Z) (seq 0 periods).

End Calendar.
Export Calendar.

(* ===================================================================== *)
(** ** [src/analytics.py]: the forecasting feature *)
(* ===================================================================== *)

Module Analytics.

Definition metrics : list string := ["cases"; "deaths"; "cases_p_k"; "deaths_p_k"].

Definition metric_map : list (string * string) :=
  [("cases", "TOTAL_CASES"); ("deaths", "TOTAL_DEATHS");
   ("cases_p_k", "CASES_PER_100K"); ("deaths_p_k", "DEATHS_PER_100K")].

(** Lines 54-58: the query parameters of the trend request, as the endpoint
    receives them (county, metric, interval). The interval is always
    [day]. *)
Definition trend_request (selected_county selected_metric : string)
  : option string * option string * option string :=
  (Some selected_county, Some selected_metric, Some "day").

(** [df.columns] of [pd.DataFrame(rows)]: every key of every row. *)
Definition columns (rows : list Row) : list string :=
  concat (map dict_keys rows).

(** A cell of the frame; a row that lacks the column holds NaN. *)
Definition cell (column : string) (r : Row) : Cell :=
  default CNull (dict_get r column).

Section Forecasting.

(** [float64] values stay abstract, and so do the two parsers and the
    model: [to_datetime] and [to_numeric] are the element-wise
    coercions with [errors='coerce'] ([None] for NaT / NaN), and
    [ARIMA series order steps] stands for
    [ARIMA(series, order).fit().forecast(steps)], either the text of the
    exception it raised or the forecast series, read as a map from index
    label to value. *)
Variable Value : Type.
Variable to_datetime : Cell → option Timestamp.
Variable to_numeric : Cell → option Value.
Variable ARIMA : list (Timestamp * Value) → nat * nat * nat → nat →
                 string + (Timestamp → option Value).

Inductive Kind := Observed | Forecast.

(** One row of a frame indexed by period: value ([None] for NaN) and the
    [type] column. *)
Definition Point : Type := Timestamp * option Value * Kind.

(** What the branch does that can be seen from outside. *)
Inductive Event :=
| StWarning (msg : string)
| StError (msg : string)
| Fit (series : list (Timestamp * Value)) (order : nat * nat * nat) (steps : nat)
| PlotlyChart (combined : list Point)
| Uncaught (exception : string).

(** Line 74: the label of a column after
    [rename(columns={'PERIOD': 'period', metric_col: 'value'})]. A label
    that is no key of the mapping stays, so a column that is already
    called [period] or [value] keeps its name; a dict literal with a
    repeated key keeps the last value. *)
Definition rename (metric_col c : string) : string :=
  if String.eqb c metric_col then "value"
  else if String.eqb c "PERIOD" then "period"
  else c.

(** The columns of the frame that carry [label] after the rename, each
    once. *)
Definition labelled (metric_col label : string) (rows : list Row) : list string :=
  filter (λ c, rename metric_col c = label) (remove_dups (columns rows)).

(** Lines 75-77 on one row, with the columns that became [period] and
    [value]: coerce both, drop the row when either is missing. *)
Definition clean_row (period_col value_col : string) (r : Row)
  : option (Timestamp * Value) :=
  match to_datetime (cell period_col r), to_numeric (cell value_col r) with
  | Some t, Some v => Some (t, v)
  | _, _ => None
  end.

Definition clean (period_col value_col : string) (rows : list Row)
  : list (Timestamp * Value) :=
  omap (clean_row period_col value_col) rows.

(** Lines 74-77: rename, coerce both columns, drop the rows where either
    is missing, index by period; [inl] is the exception that stops the
    page. Without a column labelled [period], [df['period']] is a KeyError.
    With two columns of one label, [df[label]] is a frame and not a series:
    [pd.to_datetime] refuses it with a ValueError (line 75) and
    [pd.to_numeric] with a TypeError (line 76). *)
Definition prepare (metric_col : string) (rows : list Row)
  : string + list (Timestamp * Value) :=
  match labelled metric_col "period" rows with
  | [] => inl "KeyError"
  | [period_col] =>
      match labelled metric_col "value" rows with
      | [] => inl "KeyError"
      | [value_col] => inr (clean period_col value_col rows)
      | _ :: _ :: _ => inl "TypeError"
      end
  | _ :: _ :: _ => inl "ValueError"
  end.

(** Line 86 *)
Definition forecast_dates (df : list (Timestamp * Value)) (forecast_horizon : nat)
  : option (list Timestamp) :=
  match last df with
  | Some (last_period, _) => Some (date_range (last_period + DAY)%Z forecast_horizon)
  | None => None
  end.

(** Lines 83-102, the body of [try]. *)
Definition fit_and_plot (df : list (Timestamp * Value)) (forecast_horizon : nat)
  : list Event :=
  match ARIMA df (1, 1, 1)%nat forecast_horizon with
  | inl e => [Fit df (1, 1, 1)%nat forecast_horizon; StError ("Forecast error: " +:+ e)]
  | inr forecast =>
      match forecast_dates df forecast_horizon with
      | None => [Fit df (1, 1, 1)%nat forecast_horizon;
                 StError "Forecast error: index -1 is out of bounds for axis 0 with size 0"]
      | Some dates =>
          let forecast_df := map (λ d, (d, forecast d, Forecast)) dates in
          let observed := map (λ p, (p.1, Some p.2, Observed)) df in
          [Fit df (1, 1, 1)%nat forecast_horizon; PlotlyChart (observed ++ forecast_df)]
      end
  end.

(** Lines 60-106: what happens once the trend response [res] is in.
    [ok] is [res.ok]; [rows] is [res.json()], the list the trend endpoint
    returns for a metric of [metrics]. *)
Definition run_forecast (ok : bool) (rows : list Row)
    (selected_county selected_metric : string) (forecast_horizon : nat)
  : list Event :=
  if ok && negb (bool_decide (rows = [])) then
    match dict_get metric_map selected_metric with
    | None => [Uncaught "KeyError"]
    | Some metric_col =>
        if negb (str_in metric_col (columns rows)) then
          [StWarning ("No data available for " +:+ selected_metric +:+ " in "
                      +:+ selected_county +:+ ".")]
        else
          match prepare metric_col rows with
          | inl e => [Uncaught e]
          | inr df =>
              if bool_decide (df = []) then
                [StWarning ("No valid " +:+ selected_metric +:+ " data available for "
                            +:+ selected_county +:+ ".")]
              else fit_and_plot df forecast_horizon
          end
    end
  else [StWarning "No trend data available for this county/metric."].

End Forecasting.

Arguments StWarning {Value} msg.
Arguments StError {Value} msg.
Arguments Fit {Value} series order steps.
Arguments PlotlyChart {Value} combined.
Arguments Uncaught {Value} exception.
Arguments forecast_dates {Value} df forecast_horizon.
Arguments fit_and_plot {Value} ARIMA df forecast_horizon.
Arguments clean {Value} to_datetime to_numeric period_col value_col rows.
Arguments prepare {Value} to_datetime to_numeric metric_col rows.
Arguments run_forecast {Value} to_datetime to_numeric ARIMA ok rows
  selected_county selected_metric forecast_horizon.

End Analytics.

(* ===================================================================== *)
(** ** Vocabulary of the properties *)
(* ===================================================================== *)

Module Props.
Import Lru Api.

(** *** The memo *)

(** One use of the memo: a statement, its parameters, and what the
    warehouse would answer at that moment. *)
Record Call := mkCall {
  call_wh : Warehouse;
  call_query : string;
  call_params : list Param
}.

Definition call_key (c : Call) : Signature := (call_query c, call_params c).

Definition call (c : Call) : M ResultSet :=
  fetch_query_cached (call_wh c) (call_query c) (call_params c).

(** The state after a sequence of uses. *)
Fixpoint run (calls : list Call) (w : World) : World :=
  match calls with
  | [] => w
  | c :: rest => run rest (call c w).2
  end.

(** The signatures of the uses that were answered, in order. A use whose
    warehouse call raises answers nothing and leaves no entry. *)
Fixpoint served (calls : list Call) (w : World) : list Signature :=
  match calls with
  | [] => []
  | c :: rest =>
      match (call c w).1 with
      | Returned _ => call_key c :: served rest (call c w).2
      | Raised _ => served rest (call c w).2
      end
  end.

(** [key] is in the memo after each use of [calls]. *)
Fixpoint stays_cached (key : Signature) (calls : list Call) (w : World) : Prop :=
  match calls with
  | [] => True
  | c :: rest =>
      is_Some (cache_get key (entries (cache (call c w).2)))
      ∧ stays_cached key rest (call c w).2
  end.

(** Using [k] makes it the most recent signature. *)
Definition touch (k : Signature) (order : list Signature) : list Signature :=
  filter (λ k', k' ≠ k) order ++ [k].

(** The distinct signatures of a history, least recently used first. *)
Definition recency (history : list Signature) : list Signature :=
  foldl (λ order k, touch k order) [] history.

(** The [n] last elements. *)
Definition lastn {A} (n : nat) (l : list A) : list A := drop (length l - n) l.

(** Shape of a memo of capacity [n]. *)
Definition cache_ok (n : nat) (c : LruCache) : Prop :=
  NoDup (keys c) ∧ length (entries c) ≤ n ∧ full c = Nat.leb n (length (entries c)).

(** A memo of capacity [n] that holds exactly the [n] most recently used
    signatures of [history], oldest first. *)
Definition tracks (n : nat) (history : list Signature) (c : LruCache) : Prop :=
  cache_ok n c ∧ keys c = lastn n (recency history).

End Props.

(* ===================================================================== *)
(** ** The endpoints *)
(* ===================================================================== *)

Module Claims.
Import Api Props.

(** The metric enumeration as the specification words it. *)
Definition claimed_metrics : list string :=
  ["cases"; "deaths"; "cases_per_100k"; "deaths_per_100k"].

(** The two lookups that report an empty result set as an error. *)
Inductive Lookup :=
| EntitySummary (county : option string)
| CrossSectionalView (county date start_date end_date : option string).

Definition lookup_query (op : Lookup) : Signature :=
  match op with
  | EntitySummary county => get_demographics_query county
  | CrossSectionalView county date start_date end_date =>
      get_cases_demographics_view_query county date start_date end_date
  end.

Definition lookup (wh : Warehouse) (op : Lookup) : M Response :=
  match op with
  | EntitySummary county => get_demographics wh county
  | CrossSectionalView county date start_date end_date =>
      get_cases_demographics_view wh county date start_date end_date
  end.

Definition not_found_message (op : Lookup) : string :=
  match op with
  | EntitySummary _ => "No demographics found"
  | CrossSectionalView _ _ _ _ => "No data found with given filters"
  end.

(** A warehouse with one row for every statement, and one with none. *)
Definition one_row : Row := [("AREA", CStr "Alameda"); ("CASES", CNum 7 0)].
Definition wh_one_row : Warehouse := λ _, Some [one_row].
Definition wh_two_rows : Warehouse := λ _, Some [one_row; one_row].
Definition wh_no_rows : Warehouse := λ _, Some [].
Definition wh_down : Warehouse := λ _, None.

(** The memo after [n] statements that differ in their bound integer. *)
Definition distinct_calls (n : nat) : list Call :=
  map (λ i, mkCall wh_one_row "SELECT %s" [PInt (Z.of_nat i)]) (seq 0 n).

(** A metric value that is SQL rather than a column name. *)
Definition hostile_metric : string :=
  "1) AS x FROM CALIFORNIA_COVID_ANALYTICS.RAW.CA_COUNTY_DEMOGRAPHICS_2020 --".

(** Every text the trend endpoint can send. *)
Definition trend_select_clauses : list string :=
  ["SUM(TOTAL_CASES) AS total_cases";
   "SUM(TOTAL_DEATHS) AS total_deaths";
   "AVG(CASES_PER_100K) AS CASES_PER_100K";
   "AVG(DEATHS_PER_100K) AS DEATHS_PER_100K";
   "SUM(TOTAL_CASES) AS TOTAL_CASES, SUM(TOTAL_DEATHS) AS TOTAL_DEATHS, AVG(CASES_PER_100K) AS CASES_PER_100K, AVG(DEATHS_PER_100K) AS DEATHS_PER_100K"].

Definition trend_texts : list string :=
  d ← ["DATE_TRUNC('month', DATE)"; "DATE"];
  s ← trend_select_clauses;
  c ← [""; " AND AREA = %s"];
  ["SELECT " +:+ d +:+ " AS period, " +:+ s
   +:+ " FROM CALIFORNIA_COVID_ANALYTICS.ANALYTICS.CA_TREND_MV WHERE 1=1" +:+ c].

End Claims.

(* ===================================================================== *)
(** ** Vocabulary and sample data for the forecasting claims *)
(* ===================================================================== *)

Module Samples.
Import Analytics.

(** How a trend series is bucketed. *)
Inductive Interval := Daily | Monthly.

(** The period after [t] in a series bucketed by [i], in the words of the
    specification: the next day, or the next month start. *)
Definition next_period (i : Interval) (t : Timestamp) : Timestamp :=
  match i with
  | Daily => (t + DAY)%Z
  | Monthly => next_month_start t
  end.

(** Sum of the order terms of ARIMA(1,1,1). *)
Definition order_terms : nat := 1 + 1 + 1.

(** A reading of [YYYY-MM-DD] cells, for the examples. *)
Definition digit (a : Ascii.ascii) : option Z :=
  let n := (Z.of_nat (Ascii.nat_of_ascii a) - 48)%Z in
  if (0 <=? n)%Z && (n <=? 9)%Z then Some n else None.

Fixpoint digits (s : string) (acc : Z) : option Z :=
  match s with
  | EmptyString => Some acc
  | String a rest =>
      match digit a with
      | Some d => digits rest (10 * acc + d)%Z
      | None => None
      end
  end.

Definition iso_date (c : Cell) : option Timestamp :=
  match c with
  | CStr s =>
      if Nat.eqb (String.length s) 10
         && String.eqb (String.substring 4 1 s) "-"
         && String.eqb (String.substring 7 1 s) "-"
      then
        match digits (String.substring 0 4 s) 0, digits (String.substring 5 2 s) 0,
              digits (String.substring 8 2 s) 0 with
        | Some y, Some m, Some d => Some (midnight y m d)
        | _, _, _ => None
        end
      else None
  | _ => None
  end.

(** Whole numbers as values, for the examples. *)
Definition whole_number (c : Cell) : option Z :=
  match c with
  | CNum m 0 => Some m
  | _ => None
  end.

(** A model that forecasts zero at every label, and one whose fit raises. *)
Definition arima_flat : list (Timestamp * Z) → nat * nat * nat → nat →
                        string + (Timestamp → option Z) :=
  λ _ _ _, inr (λ _, Some 0%Z).

Definition arima_raises : list (Timestamp * Z) → nat * nat * nat → nat →
                          string + (Timestamp → option Z) :=
  λ _ _ _, inl "too few observations".

(** A trend response with a single clean row. *)
Definition single_row_response : list Row :=
  [[("PERIOD", CStr "2021-03-01"); ("TOTAL_CASES", CNum 5 0)]].

(** A trend response whose rows are all dropped: a NULL value, a period
    that is no date. *)
Definition unusable_response : list Row :=
  [[("PERIOD", CStr "2021-03-01"); ("TOTAL_CASES", CNull)];
   [("PERIOD", CStr "n/a"); ("TOTAL_CASES", CNum 5 0)]].

(** A response whose period column is already called [period]: the rename
    leaves it alone. *)
Definition lowercase_period_response : list Row :=
  [[("period", CStr "2021-03-01"); ("TOTAL_CASES", CNum 5 0)]].

(** Responses with two columns of one label after the rename, and one
    with no period column at all. *)
Definition two_period_response : list Row :=
  [[("PERIOD", CStr "2021-03-01"); ("period", CStr "2021-03-02");
    ("TOTAL_CASES", CNum 5 0)]].

Definition two_value_response : list Row :=
  [[("PERIOD", CStr "2021-03-01"); ("TOTAL_CASES", CNum 5 0);
    ("value", CNum 6 0)]].

Definition no_period_response : list Row :=
  [[("DAY", CStr "2021-03-01"); ("TOTAL_CASES", CNum 5 0)]].

(** A month-bucketed series: January and February 2021. *)
Definition monthly_series : list (Timestamp * Z) :=
  [(midnight 2021 1 1, 10%Z); (midnight 2021 2 1, 20%Z)].

(** A daily series that ends on 2021-12-31. *)
Definition daily_series : list (Timestamp * Z) :=
  [(midnight 2021 12 30, 3%Z); (midnight 2021 12 31, 4%Z)].

End Samples.

(* ===================================================================== *)
(** ** [src/api.py]: rows of a cursor, the route table *)
(* ===================================================================== *)

Module Cursor.

(** [d[k] = v] on a dict in insertion order: a key that is present keeps
    its place and takes the new value. *)
Fixpoint dict_set {A} (d : list (string * A)) (k : string) (v : A)
  : list (string * A) :=
  match d with
  | [] => [(k, v)]
  | (k', v') :: rest =>
      if String.eqb k' k then (k', v) :: rest else (k', v') :: dict_set rest k v
  end.

(** [dict(pairs)] *)
Definition dict_of {A} (pairs : list (string * A)) : list (string * A) :=
  foldl (λ d kv, dict_set d kv.1 kv.2) [] pairs.

(** What a cursor holds after [execute]: the names of [cursor.description]
    and the tuples of [fetchall()]. *)
Record Fetched := mkFetched {
  description : list string;
  fetchall : list (list Cell)
}.

(** Lines 32 and 35 (44 and 47): [zip] stops at the shorter of the two. *)
Definition rows_of (f : Fetched) : ResultSet :=
  map (λ row, dict_of (zip (description f) row)) (fetchall f).

(** The warehouse as the connector presents it: [None] when it raises. *)
Definition Connector : Type := Signature → option Fetched.

Definition warehouse_of (connector : Connector) : Warehouse :=
  λ sig, rows_of <$> connector sig.

End Cursor.

Module Routes.
Import Api.

(** A request to one of the seven warehouse endpoints, with the query
    parameters FastAPI hands to the function ([None] when absent). *)
Inductive Request :=
| GetDemographics (county : option string)
| GetCases (date county : option string)
| GetCasesDemographics (date category : option string)
| GetHospitals (date county : option string)
| GetCasesDemographicsView (county date start_date end_date : option string)
| GetCasesSummaryByCounty (start_date end_date metric : option string)
                          (limit : option Z)
| GetTrend (county metric interval : option string).

(** The paths of the [@app.get] decorators. *)
Definition path (r : Request) : string :=
  match r with
  | GetDemographics _ => "/demographics"
  | GetCases _ _ => "/cases"
  | GetCasesDemographics _ _ => "/cases-demographics"
  | GetHospitals _ _ => "/hospitals"
  | GetCasesDemographicsView _ _ _ _ => "/cases-demographics-view"
  | GetCasesSummaryByCounty _ _ _ _ => "/summary/county"
  | GetTrend _ _ _ => "/summary/trend"
  end.

Definition handle (wh : Warehouse) (r : Request) : M Response :=
  match r with
  | GetDemographics county => get_demographics wh county
  | GetCases date county => get_cases wh date county
  | GetCasesDemographics date category => get_cases_demographics wh date category
  | GetHospitals date county => get_hospitals wh date county
  | GetCasesDemographicsView county date start_date end_date =>
      get_cases_demographics_view wh county date start_date end_date
  | GetCasesSummaryByCounty start_date end_date metric limit =>
      get_cases_summary_by_county wh start_date end_date metric limit
  | GetTrend county metric interval => get_trend wh county metric interval
  end.

(** Lines 174-181 of [get_trend], for a metric that passed the check. *)
Definition trend_select (metric : option string) : string :=
  if truthy metric then
    let m := default "" metric in
    let column := default "" (dict_get valid_metrics m) in
    if str_in m ["cases"; "deaths"]
    then "SUM(" +:+ column +:+ ") AS total_" +:+ m
    else "AVG(" +:+ column +:+ ") AS " +:+ column
  else
    "SUM(TOTAL_CASES) AS TOTAL_CASES, SUM(TOTAL_DEATHS) AS TOTAL_DEATHS, "
    +:+ "AVG(CASES_PER_100K) AS CASES_PER_100K, AVG(DEATHS_PER_100K) AS DEATHS_PER_100K".

(** The statement [get_trend] builds, [None] when it refuses the metric. *)
Definition get_trend_query (county metric interval : option string)
  : option Signature :=
  if truthy metric
     && negb (bool_decide (is_Some (dict_get valid_metrics (default "" metric))))
  then None
  else Some (and_eq " AND AREA = %s" county
               ("SELECT " +:+ date_expr interval +:+ " AS period, "
                +:+ trend_select metric
                +:+ " FROM CALIFORNIA_COVID_ANALYTICS.ANALYTICS.CA_TREND_MV WHERE 1=1",
                [])).

(** The statement a request hands to [fetch_query_cached]. *)
Definition request_query (r : Request) : option Signature :=
  match r with
  | GetDemographics county => Some (get_demographics_query county)
  | GetCases date county => Some (get_cases_query date county)
  | GetCasesDemographics date category =>
      Some (get_cases_demographics_query date category)
  | GetHospitals date county => Some (get_hospitals_query date county)
  | GetCasesDemographicsView county date start_date end_date =>
      Some (get_cases_demographics_view_query county date start_date end_date)
  | GetCasesSummaryByCounty start_date end_date metric limit =>
      Some (get_cases_summary_by_county_query start_date end_date metric limit)
  | GetTrend county metric interval => get_trend_query county metric interval
  end.

(** The endpoint that pastes a value of the request into the text. *)
Definition pastes_metric (r : Request) : bool :=
  match r with
  | GetCasesSummaryByCounty _ _ _ _ => true
  | _ => false
  end.

(** The endpoints without a test for an empty result. *)
Definition answers_list (r : Request) : bool :=
  match r with
  | GetCasesSummaryByCounty _ _ _ _ | GetTrend _ _ _ => true
  | _ => false
  end.

(** An argument that is the empty string, seen as an absent one. *)
Definition blank_as_absent (v : option string) : option string :=
  if truthy v then v else None.

(** The same request with every blank filter removed. The metric of the
    summary endpoint is left alone: it is pasted, not tested. *)
Definition without_blanks (r : Request) : Request :=
  match r with
  | GetDemographics county => GetDemographics (blank_as_absent county)
  | GetCases date county => GetCases (blank_as_absent date) (blank_as_absent county)
  | GetCasesDemographics date category =>
      GetCasesDemographics (blank_as_absent date) (blank_as_absent category)
  | GetHospitals date county =>
      GetHospitals (blank_as_absent date) (blank_as_absent county)
  | GetCasesDemographicsView county date start_date end_date =>
      GetCasesDemographicsView (blank_as_absent county) (blank_as_absent date)
        (blank_as_absent start_date) (blank_as_absent end_date)
  | GetCasesSummaryByCounty start_date end_date metric limit =>
      GetCasesSummaryByCounty (blank_as_absent start_date)
        (blank_as_absent end_date) metric limit
  | GetTrend county metric interval =>
      GetTrend (blank_as_absent county) (blank_as_absent metric)
        (blank_as_absent interval)
  end.

(** The string arguments of a request, in the order of its signature. *)
Definition arguments (r : Request) : list (option string) :=
  match r with
  | GetDemographics county => [county]
  | GetCases date county => [date; county]
  | GetCasesDemographics date category => [date; category]
  | GetHospitals date county => [date; county]
  | GetCasesDemographicsView county date start_date end_date =>
      [county; date; start_date; end_date]
  | GetCasesSummaryByCounty start_date end_date metric _ =>
      [start_date; end_date; metric]
  | GetTrend county metric interval => [county; metric; interval]
  end.

(** Two requests to the same filter endpoint (1 to 5) that supply the same
    filters, whatever the values. *)
Definition same_filters (a b : Request) : Prop :=
  path a = path b
  ∧ pastes_metric a = false ∧ answers_list a = false
  ∧ map truthy (arguments a) = map truthy (arguments b).

(** Number of [%s] placeholders of a statement. *)
Fixpoint placeholders (s : string) : nat :=
  match s with
  | EmptyString => 0
  | String a rest =>
      (if Ascii.eqb a "%"%char
          && match rest with
             | String b _ => Ascii.eqb b "s"%char
             | EmptyString => false
             end
       then 1 else 0) + placeholders rest
  end.

(** What [requests.get] sees: FastAPI answers 200 with the returned value
    as JSON, and 500 when the function raises. *)
Record HttpResponse := mkHttp {
  status_code : nat;
  json : option Response
}.

Definition ok (res : HttpResponse) : bool := Nat.ltb (status_code res) 400.

Definition http_get (wh : Warehouse) (r : Request) : World → HttpResponse * World :=
  λ w, match handle wh r w with
       | (Returned body, w') => (mkHttp 200 (Some body), w')
       | (Raised _, w') => (mkHttp 500 None, w')
       end.

End Routes.

(* ===================================================================== *)
(** ** [src/analytics.py]: the page and its requests *)
(* ===================================================================== *)

Module Streamlit.
Import Api Routes Analytics.

(** [bool(res.json())]: a list or a dict that is not empty. *)
Definition json_truthy (body : Response) : bool :=
  match body with
  | RError _ => true
  | RList rows => negb (bool_decide (rows = []))
  | RRecord row => negb (bool_decide (row = []))
  end.

(** Lines 20-22 of [get_counties]: [c["COUNTY_NAME"]] for every element of
    the body. Iterating a dict yields its keys, and a string has no string
    index; [inl] carries the exception. *)
Fixpoint county_names_of (rows : list Row) : string + list Cell :=
  match rows with
  | [] => inr []
  | r :: rest =>
      match dict_get r "COUNTY_NAME" with
      | None => inl "KeyError"
      | Some name =>
          match county_names_of rest with
          | inl e => inl e
          | inr names => inr (name :: names)
          end
      end
  end.

Definition county_names (res : HttpResponse) : string + list Cell :=
  if ok res then
    match json res with
    | Some (RList rows) => county_names_of rows
    | Some (RError _) => inl "TypeError"
    | Some (RRecord []) => inr []
    | Some (RRecord (_ :: _)) => inl "TypeError"
    | None => inl "JSONDecodeError"
    end
  else inr [].

(** [get_counties] under [@st.cache_data]: a value that was returned is
    returned again without running the body; an exception stores nothing. *)
Definition get_counties (wh : Warehouse) (memo : option (list Cell))
  : World → (string + list Cell) * option (list Cell) * World :=
  λ w, match memo with
       | Some names => (inr names, memo, w)
       | None =>
           let '(res, w') := http_get wh (GetDemographics None) w in
           match county_names res with
           | inr names => (inr names, Some names, w')
           | inl e => (inl e, None, w')
           end
       end.

Section ForecastButton.

Variable Value : Type.
Variable to_datetime : Cell → option Timestamp.
Variable to_numeric : Cell → option Value.
Variable ARIMA : list (Timestamp * Value) → nat * nat * nat → nat →
                 string + (Timestamp → option Value).

(** Lines 54-106: the request for the trend and what follows. A body that
    is a dict of scalars makes [pd.DataFrame] raise. *)
Definition forecast_click (wh : Warehouse) (selected_county selected_metric : string)
    (forecast_horizon : nat) : World → list (Event Value) * World :=
  λ w, let '(county, metric, interval) :=
         trend_request selected_county selected_metric in
       let '(res, w') := http_get wh (GetTrend county metric interval) w in
       (match json res with
        | Some (RList rows) =>
            run_forecast to_datetime to_numeric ARIMA (ok res) rows
              selected_county selected_metric forecast_horizon
        | Some body =>
            if ok res && json_truthy body then [Uncaught "ValueError"]
            else [StWarning "No trend data available for this county/metric."]
        | None =>
            run_forecast to_datetime to_numeric ARIMA (ok res) []
              selected_county selected_metric forecast_horizon
        end, w').

End ForecastButton.

Section Clustering.

(** The scaled array stays abstract, and so do the two estimators:
    [StandardScaler().fit_transform(frame)] and
    [KMeans(n_clusters, random_state).fit_predict(array)], each either the
    text of the exception it raised or its result. *)
Variable Matrix : Type.
Variable StandardScaler : list (list Cell) → string + Matrix.
Variable KMeans : nat → nat → Matrix → string + list nat.

Inductive ClusterEvent :=
| CWarning (msg : string)
| CScatter (points : list (Cell * nat)) (x_feature y_feature : string)
           (x y : Matrix)
| CUncaught (exception : string).

(** [cluster_data[selected_features]] of one row. *)
Definition features_of (selected_features : list string) (r : Row) : list Cell :=
  map (λ f, cell f r) selected_features.

(** A missing value of the frame. *)
Definition isna (c : Cell) : bool :=
  match c with
  | CNull => true
  | _ => false
  end.

(** A row that [dropna()] keeps. *)
Definition complete (values : list Cell) : bool :=
  forallb (λ c, negb (isna c)) values.

(** Lines 143-144: index by [AREA], keep the selected columns, drop the
    rows with a missing value. *)
Definition cluster_frame (selected_features : list string) (rows : list Row)
  : list (Cell * list Cell) :=
  filter (λ p, complete p.2 = true)
    (map (λ r, (cell "AREA" r, features_of selected_features r)) rows).

(** Lines 146-168 on the frame. The multiselect gives distinct names, so
    [cluster_data_plot[[x_feature]]] is the one column at position 0, and
    [y_feature] the one at position 1. *)
Definition cluster_and_plot (selected_features : list string) (num_clusters : nat)
    (frame : list (Cell * list Cell)) : list ClusterEvent :=
  match StandardScaler frame.*2 with
  | inl e => [CUncaught e]
  | inr cluster_scaled =>
      match KMeans num_clusters 42 cluster_scaled with
      | inl e => [CUncaught e]
      | inr cluster_labels =>
          if negb (Nat.eqb (length cluster_labels) (length frame))
          then [CUncaught "ValueError"]
          else
            match selected_features with
            | x_feature :: y_feature :: _ =>
                match StandardScaler (map (λ p, [default CNull (p.2 !! 0)]) frame) with
                | inl e => [CUncaught e]
                | inr x =>
                    match StandardScaler (map (λ p, [default CNull (p.2 !! 1)]) frame) with
                    | inl e => [CUncaught e]
                    | inr y =>
                        [CScatter (zip frame.*1 cluster_labels) x_feature y_feature x y]
                    end
                end
            | _ => [CUncaught "ValueError"]
            end
      end
  end.

(** Lines 137-170: the button of the clustering page. After
    [set_index('AREA')] the index is no column any more. *)
Definition cluster_click (wh : Warehouse) (selected_features : list string)
    (num_clusters : nat) : World → list ClusterEvent * World :=
  λ w, if Nat.ltb (length selected_features) 2
       then ([CWarning "Please select at least two features for clustering."], w)
       else
         let '(res, w') := http_get wh (GetCasesDemographicsView None None None None) w in
         (match json res with
          | Some (RList rows) =>
              if ok res && negb (bool_decide (rows = [])) then
                if negb (str_in "AREA" (columns rows)) then [CUncaught "KeyError"]
                else if negb (forallb (λ f, negb (String.eqb f "AREA")
                                            && str_in f (columns rows))
                                selected_features)
                     then [CUncaught "KeyError"]
                     else cluster_and_plot selected_features num_clusters
                            (cluster_frame selected_features rows)
              else [CWarning "No data available for clustering."]
          | Some body =>
              if ok res && json_truthy body then [CUncaught "ValueError"]
              else [CWarning "No data available for clustering."]
          | None => [CWarning "No data available for clustering."]
          end, w').

End Clustering.

Arguments CWarning {Matrix} msg.
Arguments CScatter {Matrix} points x_feature y_feature x y.
Arguments CUncaught {Matrix} exception.
Arguments cluster_and_plot {Matrix} StandardScaler KMeans selected_features
  num_clusters frame.
Arguments cluster_click {Matrix} StandardScaler KMeans wh selected_features
  num_clusters.
Arguments forecast_click {Value} to_datetime to_numeric ARIMA wh selected_county
  selected_metric forecast_horizon.

(** A cursor with two columns and one tuple, for the examples. *)
Definition two_columns : Cursor.Fetched :=
  Cursor.mkFetched ["AREA"; "CASES"] [[CStr "Alameda"; CNum 7 0]].

Definition connector_two_columns : Cursor.Connector := λ _, Some two_columns.

(** A demographics table of two counties. *)
Definition wh_two_counties : Warehouse :=
  λ _, Some [[("COUNTY_NAME", CStr "Alameda")]; [("COUNTY_NAME", CStr "Yolo")]].

(** A view of two counties, one of them without a case rate. *)
Definition wh_view : Warehouse :=
  λ _, Some [[("AREA", CStr "Alameda"); ("CASES_PER_100K", CNum 5 0);
              ("DEATHS_PER_100K", CNum 1 0)];
             [("AREA", CStr "Yolo"); ("CASES_PER_100K", CNull);
              ("DEATHS_PER_100K", CNum 2 0)]].

(** A trend of one clean row for every county. *)
Definition wh_trend : Warehouse := λ _, Some Samples.single_row_response.

(** Estimators for the examples: the scaled array is the frame itself, and
    every row gets label 0. *)
Definition scaler_id : list (list Cell) → string + list (list Cell) := inr.
Definition kmeans_zero : nat → nat → list (list Cell) → string + list nat :=
  λ _ _ m, inr (map (λ _, 0) m).

End Streamlit.

(** Unfolding of the state-and-exception monad. *)
Ltac run_monad := unfold mbind, M_bind, mret, M_ret, raise in *; simpl in *.

(* ===================================================================== *)
(** ** The memo: association-list facts *)
(* ===================================================================== *)

Section CacheLists.
Import Lru Props.
Implicit Types (l : list (Signature * ResultSet)) (k key : Signature)
               (v : ResultSet).

Lemma cache_get_None key l : cache_get key l = None ↔ key ∉ l.*1.
Proof.
  induction l as [|[k v] l IH]; simpl.
  - split; [intros _; apply not_elem_of_nil | done].
  - destruct (decide (k = key)) as [->|Hne].
    + split; [done | intros H; exfalso; apply H; left].
    + rewrite IH, not_elem_of_cons. split; [intros ?; split; [congruence | done] | tauto].
Qed.

Lemma cache_get_is_Some key l : is_Some (cache_get key l) ↔ key ∈ l.*1.
Proof.
  destruct (cache_get key l) eqn:E.
  - split; [intros _ | eauto].
    destruct (decide (key ∈ l.*1)) as [|Hn]; [done|].
    apply cache_get_None in Hn. congruence.
  - split; [intros [? ?]; done |].
    intros Hin. apply cache_get_None in E. done.
Qed.

Lemma cache_get_app key l1 l2 :
  cache_get key (l1 ++ l2) =
  match cache_get key l1 with Some v => Some v | None => cache_get key l2 end.
Proof.
  induction l1 as [|[k v] l1 IH]; simpl; [done|].
  destruct (decide (k = key)); done.
Qed.

Lemma cache_get_snoc_eq key v l :
  key ∉ l.*1 → cache_get key (l ++ [(key, v)]) = Some v.
Proof.
  intros Hn. rewrite cache_get_app.
  apply cache_get_None in Hn. rewrite Hn. simpl.
  destruct (decide (key = key)); done.
Qed.

Lemma cache_get_snoc_ne key k v l :
  k ≠ key → cache_get key (l ++ [(k, v)]) = cache_get key l.
Proof.
  intros Hne. rewrite cache_get_app. simpl.
  destruct (decide (k = key)); [done|]. by destruct (cache_get key l).
Qed.

Lemma filter_ne_id key (ks : list Signature) :
  key ∉ ks → filter (λ k', k' ≠ key) ks = ks.
Proof.
  induction ks as [|k ks IH]; [done|].
  intros [Hne Hn]%not_elem_of_cons.
  rewrite filter_cons_True by done. by rewrite IH.
Qed.

Lemma unlink_keys key l :
  NoDup l.*1 → (unlink key l).*1 = filter (λ k', k' ≠ key) l.*1.
Proof.
  induction l as [|[k v] l IH]; simpl; [done|].
  intros Hnd. apply NoDup_cons in Hnd as [Hk Hnd].
  destruct (decide (k = key)) as [->|Hne].
  - rewrite filter_cons_False by (simpl; tauto).
    symmetry. by apply filter_ne_id.
  - rewrite filter_cons_True by done. rewrite fmap_cons. f_equal. by apply IH.
Qed.

End CacheLists.

(* ===================================================================== *)
(** ** Recency order of a history *)
(* ===================================================================== *)

Section Recency.
Import Props.
Implicit Types (k : Signature) (R A X : list Signature).

Lemma lastn_all {T} n (l : list T) : length l ≤ n → lastn n l = l.
Proof. intros H. unfold lastn. replace (length l - n) with 0 by lia. done. Qed.

Lemma lastn_app_ge {T} n (A X : list T) :
  n ≤ length X → lastn n (A ++ X) = lastn n X.
Proof.
  intros H. unfold lastn. rewrite length_app.
  replace (length A + length X - n) with (length A + (length X - n)) by lia.
  by rewrite drop_app_add.
Qed.

Lemma lastn_length {T} n (l : list T) : length (lastn n l) = min n (length l).
Proof. unfold lastn. rewrite length_drop. lia. Qed.

Lemma lastn_split {T} n (l : list T) : take (length l - n) l ++ lastn n l = l.
Proof. apply take_drop. Qed.

Lemma lastn_succ_snoc {T} n (X : list T) x :
  length X = n → 0 < n → lastn n (X ++ [x]) = tail X ++ [x].
Proof.
  intros Hlen Hpos. unfold lastn. rewrite length_app. simpl.
  replace (length X + 1 - n) with 1 by lia.
  destruct X; simpl in *; [lia | done].
Qed.

Lemma filter_ne_length k R :
  NoDup R → k ∈ R → S (length (filter (λ k', k' ≠ k) R)) = length R.
Proof.
  induction R as [|a R IH]; intros Hnd Hin.
  - by apply elem_of_nil in Hin.
  - apply NoDup_cons in Hnd as [Ha Hnd].
    destruct (decide (a = k)) as [->|Hne].
    + rewrite filter_cons_False by (simpl; tauto).
      by rewrite filter_ne_id.
    + rewrite filter_cons_True by done. simpl. f_equal. apply IH; [done|].
      apply elem_of_cons in Hin as [->|]; done.
Qed.

Lemma touch_NoDup k R : NoDup R → NoDup (touch k R).
Proof.
  intros Hnd. unfold touch. apply NoDup_app. split; [by apply NoDup_filter|].
  split; [|apply NoDup_singleton].
  intros x [Hx _]%list_elem_of_filter Hk%list_elem_of_singleton. by apply Hx.
Qed.

Lemma recency_snoc h k : recency (h ++ [k]) = touch k (recency h).
Proof. unfold recency. by rewrite foldl_snoc. Qed.

Lemma recency_NoDup h : NoDup (recency h).
Proof.
  induction h as [|k h IH] using rev_ind; [apply NoDup_nil_2|].
  rewrite recency_snoc. by apply touch_NoDup.
Qed.

(** A hit moves the signature to the newest position of the window. *)
Lemma lastn_touch_hit n k R :
  NoDup R → k ∈ lastn n R → lastn n (touch k R) = touch k (lastn n R).
Proof.
  intros Hnd Hin. unfold touch at 1.
  rewrite <- (lastn_split n R) at 1. rewrite <- (lastn_split n R) in Hnd.
  apply NoDup_app in Hnd as (HA & Hdisj & HB).
  rewrite filter_app, <- app_assoc.
  rewrite (filter_ne_id k (take _ R)) by (intros H; by apply (Hdisj k)).
  pose proof (filter_ne_length k _ HB Hin) as Hlen.
  pose proof (lastn_length n R) as HlenB.
  fold (touch k (lastn n R)).
  assert (length (touch k (lastn n R)) = length (lastn n R)) as HlenT.
  { unfold touch. rewrite length_app. simpl. lia. }
  destruct (decide (length R ≤ n)) as [Hle|Hgt].
  - replace (length R - n) with 0 by lia. rewrite take_0. simpl.
    apply lastn_all. lia.
  - rewrite lastn_app_ge by lia. apply lastn_all. lia.
Qed.

(** A new signature enters a window that has room. *)
Lemma lastn_touch_room n k R :
  k ∉ lastn n R → length (lastn n R) < n →
  lastn n (touch k R) = lastn n R ++ [k].
Proof.
  intros Hn Hlt. pose proof (lastn_length n R) as HlenB.
  assert (length R < n) as HR by lia.
  rewrite (lastn_all n R) in * by lia.
  unfold touch. rewrite filter_ne_id by done.
  apply lastn_all. rewrite length_app. simpl. lia.
Qed.

(** A new signature pushes the oldest one out of a window that is full. *)
Lemma lastn_touch_evict n k R :
  0 < n → k ∉ lastn n R → length (lastn n R) = n →
  lastn n (touch k R) = tail (lastn n R) ++ [k].
Proof.
  intros Hpos Hn Hlen. unfold touch.
  rewrite <- (lastn_split n R) at 1.
  rewrite filter_app, (filter_ne_id k (lastn n R)) by done.
  rewrite <- app_assoc, lastn_app_ge by (rewrite length_app; simpl; lia).
  by apply lastn_succ_snoc.
Qed.

End Recency.

(* ===================================================================== *)
(** ** One use of [fetch_query_cached] *)
(* ===================================================================== *)

Section CacheSteps.
Import Lru Api Props.

Lemma maxsize_pos : 0 < maxsize.
Proof. unfold maxsize. lia. Qed.

(** Hit: the stored result comes back, nothing is executed. *)
Lemma fetch_hit wh q p w v :
  cache_get (q, p) (entries (cache w)) = Some v →
  fetch_query_cached wh q p w =
    (Returned v,
     mkWorld (mkLru (unlink (q, p) (entries (cache w)) ++ [((q, p), v)])
                    (S (hits (cache w))) (misses (cache w)) (full (cache w)))
             (executed w)).
Proof. intros H. unfold fetch_query_cached, wrapper. by rewrite H. Qed.

(** Miss, and the warehouse call raises: no entry is stored. *)
Lemma fetch_miss_raised wh q p w :
  cache_get (q, p) (entries (cache w)) = None →
  wh (q, p) = None →
  fetch_query_cached wh q p w =
    (Raised UpstreamError,
     mkWorld (mkLru (entries (cache w)) (hits (cache w)) (S (misses (cache w)))
                    (full (cache w)))
             (executed w ++ [(q, p)])).
Proof.
  intros H Hwh. unfold fetch_query_cached, wrapper, fetch_query.
  rewrite H. simpl. by rewrite Hwh.
Qed.

(** Miss, and the warehouse answers: one execution, one new entry. *)
Lemma fetch_miss_returned wh q p w rows :
  cache_get (q, p) (entries (cache w)) = None →
  wh (q, p) = Some rows →
  fetch_query_cached wh q p w =
    (Returned rows,
     mkWorld
       (if full (cache w)
        then mkLru (tail (entries (cache w)) ++ [((q, p), rows)])
                   (hits (cache w)) (S (misses (cache w))) (full (cache w))
        else mkLru (entries (cache w) ++ [((q, p), rows)])
                   (hits (cache w)) (S (misses (cache w)))
                   (Nat.leb maxsize (length (entries (cache w) ++ [((q, p), rows)]))))
       (executed w ++ [(q, p)])).
Proof.
  intros H Hwh. unfold fetch_query_cached, wrapper, fetch_query.
  rewrite H. simpl. rewrite Hwh. simpl. rewrite H.
  by destruct (full (cache w)).
Qed.

(** The three cases, for a use seen as a [Call]. *)
Lemma call_cases c w :
  let key := call_key c in
  let l := entries (cache w) in
  (∃ v, cache_get key l = Some v
        ∧ (call c w).1 = Returned v
        ∧ entries (cache (call c w).2) = unlink key l ++ [(key, v)]
        ∧ full (cache (call c w).2) = full (cache w)
        ∧ executed (call c w).2 = executed w)
  ∨ (cache_get key l = None ∧ call_wh c key = None
     ∧ (call c w).1 = Raised UpstreamError
     ∧ entries (cache (call c w).2) = l
     ∧ full (cache (call c w).2) = full (cache w)
     ∧ executed (call c w).2 = executed w ++ [key])
  ∨ (∃ rows, cache_get key l = None ∧ call_wh c key = Some rows
     ∧ (call c w).1 = Returned rows
     ∧ executed (call c w).2 = executed w ++ [key]
     ∧ ((full (cache w) = true
         ∧ entries (cache (call c w).2) = tail l ++ [(key, rows)]
         ∧ full (cache (call c w).2) = true)
        ∨ (full (cache w) = false
           ∧ entries (cache (call c w).2) = l ++ [(key, rows)]
           ∧ full (cache (call c w).2)
             = Nat.leb maxsize (length (l ++ [(key, rows)]))))).
Proof.
  intros key l. unfold call, call_key in *. subst key l.
  destruct (cache_get _ (entries (cache w))) as [v|] eqn:Hget.
  - left. exists v. rewrite (fetch_hit _ _ _ _ _ Hget). simpl. done.
  - right. destruct (call_wh c (call_query c, call_params c)) as [rows|] eqn:Hwh.
    + right. exists rows. rewrite (fetch_miss_returned _ _ _ _ _ Hget Hwh). simpl.
      repeat split; try done.
      destruct (full (cache w)); [left | right]; done.
    + left. rewrite (fetch_miss_raised _ _ _ _ Hget Hwh). simpl. done.
Qed.

(** A use keeps the memo in step with the history of answered uses. *)
Lemma call_tracks h c w :
  tracks maxsize h (cache w) →
  tracks maxsize (h ++ served [c] w) (cache (call c w).2).
Proof.
  intros [(Hnd & Hlen & Hfull) Hkeys]. unfold keys in *.
  pose proof maxsize_pos as Hpos.
  pose proof (recency_NoDup h) as HR.
  pose proof (call_cases c w) as Hc. cbv zeta in Hc.
  simpl served.
  set (n := maxsize) in *. clearbody n.
  destruct Hc
    as [(v & Hget & -> & He & Hf & _)
       |[(Hget & _ & -> & He & Hf & _)
        |(rows & Hget & _ & -> & _ & Hcase)]].
  - (* hit *)
    assert (call_key c ∈ (entries (cache w)).*1) as Hin
      by (apply cache_get_is_Some; eauto).
    assert ((entries (cache (call c w).2)).*1
            = touch (call_key c) (entries (cache w)).*1) as Hk.
    { rewrite He, fmap_app, unlink_keys by done. done. }
    unfold tracks, cache_ok, keys. rewrite Hk, Hf.
    assert (length (entries (cache (call c w).2)) = length (entries (cache w))) as Hl.
    { rewrite <- (length_fmap fst), Hk. unfold touch. rewrite length_app. simpl.
      pose proof (filter_ne_length _ _ Hnd Hin). rewrite <- (length_fmap fst (entries (cache w))). lia. }
    rewrite Hl. repeat split; [by apply touch_NoDup | done | done |].
    rewrite recency_snoc, Hkeys. symmetry. apply lastn_touch_hit; [done|].
    by rewrite <- Hkeys.
  - (* miss, raised *)
    rewrite app_nil_r. unfold tracks, cache_ok, keys. rewrite He, Hf. done.
  - (* miss, returned *)
    apply cache_get_None in Hget.
    unfold tracks, cache_ok, keys. rewrite recency_snoc.
    destruct Hcase as [(Hfw & -> & ->)|(Hfw & -> & ->)].
    + rewrite Hfw in Hfull. symmetry in Hfull. apply Nat.leb_le in Hfull.
      assert (length (entries (cache w)) = n) as Heq by lia.
      rewrite fmap_app, fmap_tail, length_app, length_tl. simpl.
      repeat split.
      * apply NoDup_app. split; [|split; [|apply NoDup_singleton]].
        -- destruct (entries (cache w)) as [|e l]; [done|].
           simpl in *. by apply NoDup_cons in Hnd as [_ ?].
        -- intros x Hx ->%list_elem_of_singleton. apply Hget.
           destruct (entries (cache w)) as [|e l]; [done|]. simpl in *. by right.
      * lia.
      * symmetry. apply Nat.leb_le. lia.
      * rewrite Hkeys. symmetry. apply lastn_touch_evict; [done| |].
        -- by rewrite <- Hkeys.
        -- by rewrite <- Hkeys, length_fmap.
    + rewrite Hfw in Hfull. symmetry in Hfull. apply Nat.leb_gt in Hfull.
      rewrite fmap_app, length_app. simpl.
      repeat split.
      * apply NoDup_app. split; [done|]. split; [|apply NoDup_singleton].
        intros x Hx ->%list_elem_of_singleton. done.
      * lia.
      * rewrite Hkeys. symmetry. apply lastn_touch_room.
        -- by rewrite <- Hkeys.
        -- by rewrite <- Hkeys, length_fmap.
Qed.

Lemma run_tracks calls : ∀ h w,
  tracks maxsize h (cache w) →
  tracks maxsize (h ++ served calls w) (cache (run calls w)).
Proof.
  induction calls as [|c calls IH]; intros h w Ht; simpl.
  - by rewrite app_nil_r.
  - pose proof (call_tracks h c w Ht) as Hstep. simpl in Hstep.
    destruct (call c w).1 eqn:E.
    + specialize (IH _ _ Hstep). by rewrite <- app_assoc in IH.
    + rewrite app_nil_r in Hstep. by apply IH.
Qed.

Lemma initial_tracks : tracks maxsize [] (cache initial_world).
Proof.
  unfold tracks, cache_ok, keys, recency, lastn. simpl.
  repeat split; [apply NoDup_nil_2 | lia].
Qed.

End CacheSteps.

(* ===================================================================== *)
(** ** Memoization and capacity of the result memo *)
(* ===================================================================== *)

Section Memoization.
Import Lru Api Props.

Lemma cache_get_unlink_ne key k (l : list (Signature * ResultSet)) :
  k ≠ key → cache_get key (unlink k l) = cache_get key l.
Proof.
  intros Hne. induction l as [|[k0 v0] l IH]; simpl; [done|].
  destruct (decide (k0 = k)) as [->|Hk0]; simpl.
  - destruct (decide (k = key)); done.
  - destruct (decide (k0 = key)); done.
Qed.

Lemma cache_get_tail key rows (l : list (Signature * ResultSet)) :
  NoDup l.*1 → cache_get key l = Some rows →
  is_Some (cache_get key (tail l)) → cache_get key (tail l) = Some rows.
Proof.
  destruct l as [|[k0 v0] l]; simpl; [done|].
  intros [Hk0 _]%NoDup_cons Hget Hsome.
  destruct (decide (k0 = key)) as [->|]; [|done].
  apply cache_get_is_Some in Hsome. done.
Qed.

(** A use never changes the result stored under another live entry. *)
Lemma call_keeps_value key rows c w :
  NoDup (keys (cache w)) →
  cache_get key (entries (cache w)) = Some rows →
  is_Some (cache_get key (entries (cache (call c w).2))) →
  cache_get key (entries (cache (call c w).2)) = Some rows.
Proof.
  unfold keys. intros Hnd Hget.
  assert (key ∈ (entries (cache w)).*1) as Hin by (apply cache_get_is_Some; eauto).
  destruct (call_cases c w)
    as [(v & Hget' & _ & -> & _)
       |[(_ & _ & _ & -> & _)
        |(rows' & Hget' & _ & _ & _ & [(_ & -> & _)|(_ & -> & _)])]]; intros Hsome.
  - destruct (decide (call_key c = key)) as [Heq|Hne].
    + subst key. assert (v = rows) as -> by congruence.
      apply cache_get_snoc_eq. rewrite unlink_keys by done.
      intros [? _]%list_elem_of_filter. done.
    + rewrite cache_get_snoc_ne by done. by rewrite cache_get_unlink_ne.
  - done.
  - assert (call_key c ≠ key) as Hne by (intros Heq; rewrite Heq in Hget'; congruence).
    rewrite cache_get_snoc_ne in * by done. by apply cache_get_tail.
  - assert (call_key c ≠ key) as Hne by (intros Heq; rewrite Heq in Hget'; congruence).
    by rewrite cache_get_snoc_ne.
Qed.

Lemma run_keeps_value key rows later : ∀ h w,
  tracks maxsize h (cache w) →
  cache_get key (entries (cache w)) = Some rows →
  stays_cached key later w →
  cache_get key (entries (cache (run later w))) = Some rows.
Proof.
  induction later as [|c later IH]; intros h w Ht Hget Hstay; simpl in *; [done|].
  destruct Hstay as [Hsome Hstay].
  apply (IH (h ++ served [c] w)); [by apply call_tracks | | done].
  apply call_keeps_value; [apply Ht | done | done].
Qed.

Lemma recency_of_NoDup (l : list Signature) : NoDup l → recency l = l.
Proof.
  induction l as [|k l IH] using rev_ind; [done|].
  intros (Hl & Hk & _)%NoDup_app. rewrite recency_snoc, IH by done.
  unfold touch. rewrite filter_ne_id; [done|].
  intros Hin. apply (Hk k Hin). by apply list_elem_of_singleton.
Qed.

(** The shape of the memo is kept by every use, from any state that has it. *)
Lemma call_preserves_cache_ok c w :
  cache_ok maxsize (cache w) → cache_ok maxsize (cache (call c w).2).
Proof.
  intros Hok. apply (call_tracks (keys (cache w)) c w). split; [done|].
  destruct Hok as (Hnd & Hlen & _).
  rewrite recency_of_NoDup by done. symmetry. apply lastn_all.
  unfold keys. by rewrite length_fmap.
Qed.

(** What a fresh signature adds to a full memo: the oldest entry leaves. *)
Lemma full_miss_evicts_oldest c w rows :
  cache_ok maxsize (cache w) →
  length (entries (cache w)) = maxsize →
  call_key c ∉ keys (cache w) →
  call_wh c (call_key c) = Some rows →
  entries (cache (call c w).2) = tail (entries (cache w)) ++ [(call_key c, rows)].
Proof.
  intros (_ & _ & Hfull) Hlen Hnew Hwh. unfold keys in Hnew.
  rewrite Hlen, Nat.leb_refl in Hfull.
  apply cache_get_None in Hnew.
  destruct (call_cases c w)
    as [(v & Hget' & _)
       |[(_ & Hwh' & _)
        |(rows' & _ & Hwh' & _ & _ & [(_ & -> & _)|(Hf & _)])]]; try congruence.
Qed.

(** C3. The first call for a signature runs the warehouse query exactly
    once and stores its rows; as long as the entry stays in the memo,
    every later call with an equal signature returns those stored rows and
    runs no query, whatever the warehouse would answer by then. *)
Theorem fetch_query_cached_memoizes
    (before later : list Call) (wh wh' : Warehouse)
    (q : string) (p : list Param) (rows : ResultSet) :
  cache_get (q, p) (entries (cache (run before initial_world))) = None →
  wh (q, p) = Some rows →
  (fetch_query_cached wh q p (run before initial_world)).1 = Returned rows
  ∧ executed (fetch_query_cached wh q p (run before initial_world)).2
    = executed (run before initial_world) ++ [(q, p)]
  ∧ cache_get (q, p)
      (entries (cache (fetch_query_cached wh q p (run before initial_world)).2))
    = Some rows
  ∧ (stays_cached (q, p) later
       (fetch_query_cached wh q p (run before initial_world)).2 →
     (fetch_query_cached wh' q p
        (run later (fetch_query_cached wh q p (run before initial_world)).2)).1
     = Returned rows
     ∧ executed
         (fetch_query_cached wh' q p
            (run later (fetch_query_cached wh q p (run before initial_world)).2)).2
       = executed
           (run later (fetch_query_cached wh q p (run before initial_world)).2)).
Proof.
  intros Hmiss Hwh.
  pose proof (run_tracks before [] initial_world initial_tracks) as Ht.
  simpl in Ht. set (w := run before initial_world) in *.
  pose proof (call_tracks _ (mkCall wh q p) w Ht) as Ht1.
  unfold call in Ht1. simpl call_wh in Ht1. simpl call_query in Ht1.
  simpl call_params in Ht1.
  assert (cache_get (q, p) (entries (cache (fetch_query_cached wh q p w).2))
          = Some rows) as Hstored.
  { rewrite (fetch_miss_returned _ _ _ _ _ Hmiss Hwh). simpl.
    apply cache_get_None in Hmiss.
    destruct (full (cache w)); simpl; apply cache_get_snoc_eq; [|done].
    destruct (entries (cache w)) as [|e l]; [done|].
    simpl in *. intros ?. apply Hmiss. by right. }
  split; [by rewrite (fetch_miss_returned _ _ _ _ _ Hmiss Hwh)|].
  split; [by rewrite (fetch_miss_returned _ _ _ _ _ Hmiss Hwh)|].
  split; [done|].
  intros Hstay.
  pose proof (run_keeps_value _ _ _ _ _ Ht1 Hstored Hstay) as Hlater.
  by rewrite (fetch_hit _ _ _ _ _ Hlater).
Qed.


End Memoization.

(* ===================================================================== *)
(** ** Texts of the endpoints *)
(* ===================================================================== *)

Section Endpoints.
Import Lru Api Props Claims.

Lemma and_eq_text clause v v' qp qp' :
  truthy v = truthy v' → qp.1 = qp'.1 →
  (and_eq clause v qp).1 = (and_eq clause v' qp').1.
Proof.
  intros Hv Hq. unfold and_eq. rewrite <- Hv.
  destruct (truthy v); simpl; congruence.
Qed.

(** The texts of endpoints 1 to 5 depend on which filters are present and
    on nothing else. *)
Lemma get_demographics_text c c' :
  truthy c = truthy c' →
  (get_demographics_query c).1 = (get_demographics_query c').1.
Proof. intros. unfold get_demographics_query. by apply and_eq_text. Qed.

Lemma get_cases_text d d' c c' :
  truthy d = truthy d' → truthy c = truthy c' →
  (get_cases_query d c).1 = (get_cases_query d' c').1.
Proof. intros. unfold get_cases_query. by repeat apply and_eq_text. Qed.

Lemma get_cases_demographics_text d d' c c' :
  truthy d = truthy d' → truthy c = truthy c' →
  (get_cases_demographics_query d c).1 = (get_cases_demographics_query d' c').1.
Proof. intros. unfold get_cases_demographics_query. by repeat apply and_eq_text. Qed.

Lemma get_hospitals_text d d' c c' :
  truthy d = truthy d' → truthy c = truthy c' →
  (get_hospitals_query d c).1 = (get_hospitals_query d' c').1.
Proof. intros. unfold get_hospitals_query. by repeat apply and_eq_text. Qed.

Lemma get_cases_demographics_view_text c c' d d' s s' e e' :
  truthy c = truthy c' → truthy d = truthy d' →
  truthy s = truthy s' → truthy e = truthy e' →
  (get_cases_demographics_view_query c d s e).1
  = (get_cases_demographics_view_query c' d' s' e').1.
Proof.
  intros Hc Hd Hs He. unfold get_cases_demographics_view_query.
  rewrite <- Hs, <- He.
  destruct (truthy s && truthy e); simpl;
    [f_equal|]; by repeat apply and_eq_text.
Qed.

(** Endpoint 6 binds dates and limit, and pastes the metric. *)
Lemma get_cases_summary_by_county_text s s' e e' metric limit limit' :
  truthy s = truthy s' → truthy e = truthy e' →
  (get_cases_summary_by_county_query s e metric limit).1
  = (get_cases_summary_by_county_query s' e' metric limit').1.
Proof.
  intros Hs He. unfold get_cases_summary_by_county_query. simpl.
  f_equal. by repeat apply and_eq_text.
Qed.

End Endpoints.

Section TrendEndpoint.
Import Lru Api Props Claims.

Lemma valid_metrics_keys :
  dict_keys valid_metrics = ["cases"; "deaths"; "cases_p_k"; "deaths_p_k"].
Proof. reflexivity. Qed.

Lemma valid_metric_cases m column :
  dict_get valid_metrics m = Some column →
  m = "cases" ∨ m = "deaths" ∨ m = "cases_p_k" ∨ m = "deaths_p_k".
Proof.
  unfold valid_metrics. cbn -[String.eqb].
  repeat match goal with
         | |- context [String.eqb ?a m] =>
             destruct (String.eqb_spec a m); [subst; tauto|]
         end.
  done.
Qed.

Lemma str_in_spec x l : str_in x l = true ↔ x ∈ l.
Proof.
  unfold str_in. rewrite existsb_exists. split.
  - intros (y & Hin & ->%String.eqb_eq). by apply list_elem_of_In.
  - intros Hin. exists x. split; [by apply list_elem_of_In | apply String.eqb_refl].
Qed.

Lemma dict_get_valid_metrics m :
  is_Some (dict_get valid_metrics m) ↔ m ∈ dict_keys valid_metrics.
Proof.
  rewrite valid_metrics_keys. split.
  - intros [col Hcol]. apply valid_metric_cases in Hcol.
    rewrite !elem_of_cons. tauto.
  - rewrite !elem_of_cons, elem_of_nil.
    intros [->|[->|[->|[->|[]]]]]; eexists; reflexivity.
Qed.

(** The trend endpoint either refuses the metric without touching the
    state, or hands one of twenty fixed texts to the memo. *)
Lemma date_expr_cases interval :
  date_expr interval = "DATE_TRUNC('month', DATE)" ∨ date_expr interval = "DATE".
Proof. unfold date_expr. destruct (String.eqb _ _); tauto. Qed.

(** The trend endpoint either refuses the metric without touching the
    state, or hands one of twenty fixed texts to the memo. *)
Lemma get_trend_text wh county metric interval w :
  (∃ msg, get_trend wh county metric interval w = (Returned (RError msg), w))
  ∨ ∃ text params,
      get_trend wh county metric interval w
      = (result ← fetch_query_cached wh text params; mret (RList result)) w
      ∧ text ∈ trend_texts.
Proof.
  unfold get_trend, select_clause, and_eq.
  pose proof (date_expr_cases interval) as Hd.
  destruct (truthy metric) eqn:Hm.
  - destruct metric as [m|]; [|done].
    change (default "" (Some m)) with m.
    destruct (dict_get valid_metrics m) as [col|] eqn:Hcol.
    + right. rewrite bool_decide_eq_true_2 by eauto.
      apply valid_metric_cases in Hcol as Hcases.
      destruct (truthy county);
        destruct Hd as [-> | ->];
        destruct Hcases as [-> | [-> | [-> | ->]]];
        (eexists _, _; split; [reflexivity|]);
        apply list_elem_of_In; vm_compute; tauto.
    + left. rewrite bool_decide_eq_false_2 by (intros [? ?]; done).
      eexists. reflexivity.
  - right.
    destruct (truthy county);
      destruct Hd as [-> | ->];
      (eexists _, _; split; [reflexivity|]);
      apply list_elem_of_In; vm_compute; tauto.
Qed.

End TrendEndpoint.

(* ===================================================================== *)
(** ** Endpoint claims *)
(* ===================================================================== *)

Section EndpointClaims.
Import Lru Api Props Claims.

Lemma string_app_assoc (a b c : string) : (a +:+ b) +:+ c = a +:+ (b +:+ c).
Proof.
  induction a as [|x a IH]; [reflexivity|].
  change (String x ((a +:+ b) +:+ c) = String x (a +:+ (b +:+ c))). by f_equal.
Qed.

(** The summary endpoint pastes any metric it is given into the text, twice
    before the filters and once after; what it binds does not depend on the
    metric. *)
Lemma get_cases_summary_by_county_pastes_metric s e m limit :
  ∃ filters,
    (get_cases_summary_by_county_query s e (Some m) limit).1
    = "SELECT AREA, AVG(" +:+ m +:+ ") AS avg_" +:+ m
      +:+ " FROM CALIFORNIA_COVID_ANALYTICS.ANALYTICS.CA_CASES_DEMOGRAPHICS_AGG WHERE 1=1"
      +:+ filters +:+ " GROUP BY AREA ORDER BY avg_" +:+ m +:+ " DESC LIMIT %s"
    ∧ (get_cases_summary_by_county_query s e (Some m) limit).2
      = (get_cases_summary_by_county_query s e None limit).2.
Proof.
  unfold get_cases_summary_by_county_query, and_eq. simpl default.
  destruct (truthy s), (truthy e); simpl.
  - exists (" AND DATE >= %s" +:+ " AND DATE <= %s").
    split; [|done]. by rewrite !string_app_assoc.
  - exists " AND DATE >= %s". split; [|done]. by rewrite !string_app_assoc.
  - exists " AND DATE <= %s". split; [|done]. by rewrite !string_app_assoc.
  - exists "". split; [|done]. by rewrite !string_app_assoc.
Qed.

(** C1 (the code departs from it). A metric that is SQL reaches the warehouse
    inside the statement text of the summary endpoint; the parameter tuple
    holds the limit alone. *)
Theorem get_cases_summary_by_county_interpolates_metric :
  executed (get_cases_summary_by_county wh_one_row None None
              (Some hostile_metric) None initial_world).2
  = [("SELECT AREA, AVG(" +:+ hostile_metric +:+ ") AS avg_" +:+ hostile_metric
      +:+ " FROM CALIFORNIA_COVID_ANALYTICS.ANALYTICS.CA_CASES_DEMOGRAPHICS_AGG WHERE 1=1"
      +:+ " GROUP BY AREA ORDER BY avg_" +:+ hostile_metric +:+ " DESC LIMIT %s",
      [PInt 10])]
  ∧ contains hostile_metric
      (get_cases_summary_by_county_query None None (Some hostile_metric) None).1
    = true
  ∧ str_in hostile_metric (dict_keys valid_metrics) = false.
Proof. repeat split; vm_compute; reflexivity. Qed.

(** C2 as worded fails: [cases_per_100k] is in the claimed enumeration and is
    refused, [cases_p_k] is outside it and is queried. *)
Lemma get_trend_claimed_enumeration_counterexample :
  str_in "cases_per_100k" claimed_metrics = true
  ∧ get_trend wh_one_row None (Some "cases_per_100k") None initial_world
    = (Returned (RError "Invalid metric 'cases_per_100k'. Choose from ['cases', 'deaths', 'cases_p_k', 'deaths_p_k']"),
       initial_world)
  ∧ str_in "cases_p_k" claimed_metrics = false
  ∧ (get_trend wh_one_row None (Some "cases_p_k") None initial_world).1
    = Returned (RList [one_row])
  ∧ executed (get_trend wh_one_row None (Some "cases_p_k") None initial_world).2
    = [("SELECT DATE AS period, AVG(CASES_PER_100K) AS CASES_PER_100K FROM CALIFORNIA_COVID_ANALYTICS.ANALYTICS.CA_TREND_MV WHERE 1=1", [])].
Proof. repeat split; vm_compute; reflexivity. Qed.

(** The outcome of a successful trend request is a list, never an error
    object. *)
Lemma fetch_then_list_is_no_error wh text params w :
  ∃ o w', (result ← fetch_query_cached wh text params; mret (RList result)) w = (o, w')
          ∧ ((∃ rows, o = Returned (RList rows)) ∨ ∃ e, o = Raised e).
Proof.
  run_monad. destruct (fetch_query_cached wh text params w) as [[rows|e] w'];
    eexists _, _; (split; [reflexivity|]); eauto.
Qed.

(** C2, amended. The enumeration is [cases], [deaths], [cases_p_k],
    [deaths_p_k]. A non-empty metric outside it is answered with the error
    object before any statement is built: memo, counters and execution log
    are untouched. A metric inside it never draws that error. *)
Theorem get_trend_validates_metric wh county (m : string) interval w :
  m ≠ "" →
  dict_keys valid_metrics = ["cases"; "deaths"; "cases_p_k"; "deaths_p_k"]
  ∧ if str_in m (dict_keys valid_metrics)
    then (∃ rows, (get_trend wh county (Some m) interval w).1 = Returned (RList rows))
         ∨ (∃ e, (get_trend wh county (Some m) interval w).1 = Raised e)
    else get_trend wh county (Some m) interval w
         = (Returned (RError (invalid_metric_message m)), w).
Proof.
  intros Hm. split; [reflexivity|].
  assert (truthy (Some m) = true) as Ht.
  { simpl. destruct (String.eqb_spec m ""); done. }
  destruct (str_in m (dict_keys valid_metrics)) eqn:Hin.
  - apply str_in_spec, dict_get_valid_metrics in Hin.
    destruct (get_trend_text wh county (Some m) interval w)
      as [[msg Hrej] | (text & params & -> & _)].
    + unfold get_trend in Hrej. rewrite Ht in Hrej.
      change (default "" (Some m)) with m in Hrej.
      rewrite bool_decide_eq_true_2 in Hrej by done.
      exfalso. revert Hrej. unfold select_clause, valid_metrics_at. rewrite Ht.
      change (default "" (Some m)) with m. destruct Hin as [col Hcol].
      rewrite Hcol. destruct (str_in m _); run_monad;
        destruct (and_eq _ _ _); destruct (fetch_query_cached _ _ _ _) as [[?|?] ?];
        discriminate.
    + destruct (fetch_then_list_is_no_error wh text params w) as (o & w' & -> & Ho).
      simpl. destruct Ho as [[rows ->] | [e ->]]; eauto.
  - unfold get_trend. rewrite Ht. change (default "" (Some m)) with m.
    rewrite bool_decide_eq_false_2; [done|].
    intros Hsome. apply dict_get_valid_metrics, str_in_spec in Hsome. congruence.
Qed.

(** [deaths_per_100k] is refused and leaves the state as it was. *)
Lemma get_trend_validates_metric_witness :
  get_trend wh_one_row (Some "Alameda") (Some "deaths_per_100k") (Some "day") initial_world
  = (Returned (RError (invalid_metric_message "deaths_per_100k")), initial_world).
Proof.
  exact (proj2 (get_trend_validates_metric wh_one_row (Some "Alameda")
                  "deaths_per_100k" (Some "day") initial_world
                  ltac:(discriminate))).
Defined.

(** C8 as worded fails: with an exact date and a range both supplied, the
    view endpoint sends one statement that carries both predicates, and
    answers with a row rather than an error. *)
Lemma get_cases_demographics_view_conjoins_counterexample :
  get_cases_demographics_view_query (Some "Alameda") (Some "2022-12-31")
    (Some "2022-01-01") (Some "2022-12-31")
  = ("SELECT * FROM CALIFORNIA_COVID_ANALYTICS.ANALYTICS.CA_CASES_DEMOGRAPHICS_VIEW WHERE 1=1 AND AREA = %s AND DATE = %s AND DATE BETWEEN %s AND %s",
     [PStr "Alameda"; PStr "2022-12-31"; PStr "2022-01-01"; PStr "2022-12-31"])
  ∧ (get_cases_demographics_view wh_two_rows (Some "Alameda") (Some "2022-12-31")
       (Some "2022-01-01") (Some "2022-12-31") initial_world).1
    = Returned (RRecord one_row)
  ∧ executed
      (get_cases_demographics_view wh_two_rows (Some "Alameda") (Some "2022-12-31")
         (Some "2022-01-01") (Some "2022-12-31") initial_world).2
    = [get_cases_demographics_view_query (Some "Alameda") (Some "2022-12-31")
         (Some "2022-01-01") (Some "2022-12-31")].
Proof. repeat split; vm_compute; reflexivity. Qed.

(** The only error object of the view endpoint is the one for no rows. *)
Lemma get_cases_demographics_view_errors wh county date start_date end_date w msg :
  (get_cases_demographics_view wh county date start_date end_date w).1
  = Returned (RError msg) →
  msg = "No data found with given filters"
  ∧ (fetch_query_cached wh
       (get_cases_demographics_view_query county date start_date end_date).1
       (get_cases_demographics_view_query county date start_date end_date).2 w).1
    = Returned [].
Proof.
  unfold get_cases_demographics_view.
  destruct (get_cases_demographics_view_query _ _ _ _) as [query params].
  run_monad.
  destruct (fetch_query_cached wh query params w) as [[rows|e] w']; [|done].
  destruct rows as [|r rows]; simpl.
  - by intros [= <-].
  - destruct (truthy county && _); simpl; discriminate.
Qed.

(** C8, amended. When an exact date and both ends of a range are supplied,
    the view endpoint applies both: the statement is the base text, the
    county predicate if a county is given, then [DATE = %s] and
    [DATE BETWEEN %s AND %s], with the date and the two ends bound in that
    order. The request is not refused: the only error object it can draw is
    the one for an empty result set. *)
Theorem get_cases_demographics_view_applies_both_dates
    wh county (date start_date end_date : string) w :
  date ≠ "" → start_date ≠ "" → end_date ≠ "" →
  get_cases_demographics_view_query county (Some date) (Some start_date) (Some end_date)
  = ((get_cases_demographics_view_query county None None None).1
       +:+ " AND DATE = %s" +:+ " AND DATE BETWEEN %s AND %s",
     (get_cases_demographics_view_query county None None None).2
       ++ [PStr date; PStr start_date; PStr end_date])
  ∧ ∀ msg,
      (get_cases_demographics_view wh county (Some date) (Some start_date)
         (Some end_date) w).1 = Returned (RError msg) →
      (fetch_query_cached wh
         (get_cases_demographics_view_query county (Some date) (Some start_date)
            (Some end_date)).1
         (get_cases_demographics_view_query county (Some date) (Some start_date)
            (Some end_date)).2 w).1 = Returned [].
Proof.
  intros Hd Hs He. split.
  - unfold get_cases_demographics_view_query, and_eq. simpl truthy.
    destruct (String.eqb_spec date ""); [done|].
    destruct (String.eqb_spec start_date ""); [done|].
    destruct (String.eqb_spec end_date ""); [done|].
    simpl. destruct (truthy county); reflexivity.
  - intros msg Hmsg. by apply get_cases_demographics_view_errors in Hmsg as [_ ?].
Qed.

(** Both predicates, for a request without a county, on an empty table. *)
Lemma get_cases_demographics_view_applies_both_dates_witness :
  get_cases_demographics_view_query None (Some "2022-12-31") (Some "2022-01-01")
    (Some "2022-12-31")
  = ((get_cases_demographics_view_query None None None None).1
       +:+ " AND DATE = %s" +:+ " AND DATE BETWEEN %s AND %s",
     (get_cases_demographics_view_query None None None None).2
       ++ [PStr "2022-12-31"; PStr "2022-01-01"; PStr "2022-12-31"]).
Proof.
  exact (proj1 (get_cases_demographics_view_applies_both_dates wh_no_rows None
                  "2022-12-31" "2022-01-01" "2022-12-31" initial_world
                  ltac:(discriminate) ltac:(discriminate) ltac:(discriminate))).
Defined.

(** C9. When the result set of a well-formed lookup is empty, the entity
    summary and the cross-sectional view answer with their error object, and
    the state is the one the memo left. *)
Theorem empty_result_is_reported_not_found wh (op : Lookup) w :
  (fetch_query_cached wh (lookup_query op).1 (lookup_query op).2 w).1 = Returned [] →
  lookup wh op w
  = (Returned (RError (not_found_message op)),
     (fetch_query_cached wh (lookup_query op).1 (lookup_query op).2 w).2).
Proof.
  destruct op as [county | county date start_date end_date]; simpl;
    [unfold get_demographics | unfold get_cases_demographics_view];
    destruct (_ : Signature) as [query params]; run_monad;
    destruct (fetch_query_cached wh query params w) as [[rows|e] w'];
    simpl; intros [= ->]; done.
Qed.

(** The scenario of the specification: Alameda on 2022-12-31, no rows. *)
Lemma empty_result_is_reported_not_found_witness :
  lookup wh_no_rows
    (CrossSectionalView (Some "Alameda") (Some "2022-12-31") None None) initial_world
  = (Returned (RError "No data found with given filters"),
     (fetch_query_cached wh_no_rows
        (lookup_query (CrossSectionalView (Some "Alameda") (Some "2022-12-31") None None)).1
        (lookup_query (CrossSectionalView (Some "Alameda") (Some "2022-12-31") None None)).2
        initial_world).2).
Proof.
  apply (empty_result_is_reported_not_found wh_no_rows
           (CrossSectionalView (Some "Alameda") (Some "2022-12-31") None None)
           initial_world).
  reflexivity.
Defined.

(** Neither lookup ever answers with an empty list. *)
Lemma lookup_never_empty_list wh op w rows :
  (lookup wh op w).1 = Returned (RList rows) → rows ≠ [].
Proof.
  destruct op as [county | county date start_date end_date]; simpl;
    [unfold get_demographics | unfold get_cases_demographics_view];
    destruct (_ : Signature) as [query params]; run_monad;
    destruct (fetch_query_cached wh query params w) as [[[|r result]|e] w'];
    simpl; try discriminate.
  - destruct (truthy county); simpl; [discriminate|]. by intros [= <-].
  - destruct (truthy county && _); simpl; [discriminate|]. by intros [= <-].
Qed.

(** C10. When the cases statement yields at least one row, the answer is the
    first row alone exactly when both county and date are supplied, and the
    whole list, even a list of one row, otherwise. *)
Theorem get_cases_result_shape wh date county w (r : Row) (rest : ResultSet) :
  (fetch_query_cached wh (get_cases_query date county).1
     (get_cases_query date county).2 w).1 = Returned (r :: rest) →
  (get_cases wh date county w).1
  = Returned (if truthy county && truthy date then RRecord r else RList (r :: rest)).
Proof.
  unfold get_cases. destruct (get_cases_query date county) as [query params].
  run_monad.
  destruct (fetch_query_cached wh query params w) as [[rows|e] w']; [|done].
  simpl. intros [= ->]. simpl.
  by destruct (truthy county && truthy date).
Qed.

(** A county alone, and a table that holds one matching row: a list of one. *)
Lemma get_cases_result_shape_witness :
  (get_cases wh_one_row None (Some "Alameda") initial_world).1
  = Returned (RList [one_row]).
Proof.
  apply (get_cases_result_shape wh_one_row None (Some "Alameda") initial_world
           one_row []).
  reflexivity.
Defined.

(** Both filters, and a table that holds two matching rows: the first one. *)
Lemma get_cases_first_of_many :
  (get_cases wh_two_rows (Some "2022-12-31") (Some "Alameda") initial_world).1
  = Returned (RRecord one_row).
Proof. reflexivity. Qed.

End EndpointClaims.

(* ===================================================================== *)
(** ** The forecasting feature *)
(* ===================================================================== *)

Section ForecastClaims.
Import Analytics Samples.

Variable Value : Type.
Variable to_datetime : Cell → option Timestamp.
Variable to_numeric : Cell → option Value.
Variable ARIMA : list (Timestamp * Value) → nat * nat * nat → nat →
                 string + (Timestamp → option Value).

Lemma DAY_pos : (0 < DAY)%Z.
Proof. reflexivity. Qed.

Lemma date_range_length start n : length (date_range start n) = n.
Proof. unfold date_range. by rewrite length_map, length_seq. Qed.

Lemma date_range_lookup start n i :
  i < n → date_range start n !! i = Some (start + Z.of_nat i * DAY)%Z.
Proof.
  intros Hi. unfold date_range.
  rewrite list_lookup_fmap, lookup_seq_lt by done. done.
Qed.

Lemma date_range_elem start n t :
  t ∈ date_range start n ↔ ∃ i, i < n ∧ t = (start + Z.of_nat i * DAY)%Z.
Proof.
  unfold date_range. rewrite list_elem_of_fmap. split.
  - intros (i & -> & Hi%elem_of_seq). exists i. split; [lia | done].
  - intros (i & Hi & ->). exists i. split; [done|]. apply elem_of_seq. lia.
Qed.

(** In a strictly increasing sequence the last element is the greatest. *)
Lemma sorted_last_greatest (l : list Z) x :
  StronglySorted Z.lt l → last l = Some x → ∀ y, y ∈ l → (y ≤ x)%Z.
Proof.
  induction 1 as [|a l Hs IH Hall]; intros Hlast y Hy.
  - by apply elem_of_nil in Hy.
  - destruct l as [|b l].
    + simpl in Hlast. injection Hlast as <-.
      apply list_elem_of_singleton in Hy as ->. lia.
    + change (last (a :: b :: l)) with (last (b :: l)) in Hlast.
      apply elem_of_cons in Hy as [-> | Hy].
      * assert (x ∈ b :: l) as Hx by (by apply last_Some_elem_of).
        rewrite Forall_forall in Hall. specialize (Hall x Hx). lia.
      * by apply IH.
Qed.

(** The forecasting feature asks the trend endpoint for raw dates, never for
    month buckets. *)
Lemma trend_request_is_daily selected_county selected_metric :
  Api.date_expr (trend_request selected_county selected_metric).2 = "DATE".
Proof. reflexivity. Qed.

(** Every series that is not empty reaches the model, whatever its length. *)
Lemma fit_and_plot_fits df h :
  head (fit_and_plot ARIMA df h) = Some (Fit df (1, 1, 1) h).
Proof.
  unfold fit_and_plot. destruct (ARIMA df _ h); [done|].
  by destruct (forecast_dates df h).
Qed.

(** C5, amended. For a non-empty series with strictly increasing periods
    and a model that fits, the chart shows the observed points followed by
    exactly [forecast_horizon] forecast points; the i-th of them (from 0) is
    dated [i + 1] days after the last observed period, so the first is the
    next day and consecutive ones are one day apart; and every forecast
    period is later than every observed period. *)
Theorem forecast_periods_follow_last_day
    (df : list (Timestamp * Value)) (forecast_horizon : nat)
    (last_period : Timestamp) (last_value : Value)
    (forecast : Timestamp → option Value) :
  last df = Some (last_period, last_value) →
  StronglySorted Z.lt df.*1 →
  ARIMA df (1, 1, 1) forecast_horizon = inr forecast →
  ∃ points : list (Point Value),
    fit_and_plot ARIMA df forecast_horizon
    = [Fit df (1, 1, 1) forecast_horizon;
       PlotlyChart (map (λ p, (p.1, Some p.2, Observed)) df ++ points)]
    ∧ length points = forecast_horizon
    ∧ (∀ i, i < forecast_horizon →
         points !! i
         = Some ((last_period + (Z.of_nat i + 1) * DAY)%Z,
                 forecast (last_period + (Z.of_nat i + 1) * DAY)%Z, Forecast))
    ∧ (∀ t t', t ∈ points.*1.*1 → t' ∈ df.*1 → (t' < t)%Z).
Proof.
  intros Hlast Hsorted Hfit.
  unfold fit_and_plot, forecast_dates. rewrite Hfit, Hlast.
  eexists. split; [reflexivity|].
  pose proof DAY_pos as Hday.
  split; [by rewrite length_map, date_range_length|].
  split.
  - intros i Hi. rewrite list_lookup_fmap, date_range_lookup by done. simpl.
    replace (last_period + DAY + Z.of_nat i * DAY)%Z
      with (last_period + (Z.of_nat i + 1) * DAY)%Z by lia.
    done.
  - intros t t' Ht Ht'.
    rewrite <- list_fmap_compose in Ht.
    apply list_elem_of_fmap in Ht as (p & -> & Hp).
    apply list_elem_of_fmap in Hp as (d & -> & Hd). simpl.
    apply date_range_elem in Hd as (i & _ & ->).
    assert (last df.*1 = Some last_period) as Hl by (by rewrite fmap_last, Hlast).
    pose proof (sorted_last_greatest _ _ Hsorted Hl t' Ht'). nia.
Qed.


(** A series that keeps at least one row is handed to the model, whatever
    its length. *)
Lemma nonempty_series_is_fitted rows county metric metric_col p rest h :
  dict_get metric_map metric = Some metric_col →
  rows ≠ [] →
  str_in metric_col (columns rows) = true →
  prepare to_datetime to_numeric metric_col rows = inr (p :: rest) →
  head (run_forecast to_datetime to_numeric ARIMA true rows county metric h)
  = Some (Fit (p :: rest) (1, 1, 1) h).
Proof.
  intros Hcol Hrows Hm Hprep. unfold run_forecast.
  rewrite Hcol, Hm, Hprep. simpl.
  rewrite bool_decide_eq_false_2 by done. simpl.
  apply fit_and_plot_fits.
Qed.

(** The model is only ever called on the series of lines 74-77, and never
    on an empty one. *)
Lemma fitted_series_is_prepared ok rows county metric h series order steps :
  Fit series order steps
  ∈ run_forecast to_datetime to_numeric ARIMA ok rows county metric h →
  ∃ metric_col p rest,
    dict_get metric_map metric = Some metric_col
    ∧ prepare to_datetime to_numeric metric_col rows = inr series
    ∧ series = p :: rest ∧ order = (1, 1, 1) ∧ steps = h.
Proof.
  unfold run_forecast.
  destruct (ok && _); [|intros [=]%list_elem_of_singleton].
  destruct (dict_get metric_map metric) as [metric_col|];
    [|intros [=]%list_elem_of_singleton].
  destruct (negb (str_in metric_col _)); [intros [=]%list_elem_of_singleton|].
  destruct (prepare _ _ metric_col rows) as [e|df] eqn:Hprep;
    [intros [=]%list_elem_of_singleton|].
  destruct df as [|p rest]; [intros [=]%list_elem_of_singleton|].
  rewrite bool_decide_eq_false_2 by done. unfold fit_and_plot.
  destruct (ARIMA (p :: rest) (1, 1, 1) h) as [e|forecast].
  - rewrite !elem_of_cons, elem_of_nil.
    intros [[= -> -> ->] | [[=] | []]]. by exists metric_col, p, rest.
  - destruct (forecast_dates _ h);
      rewrite !elem_of_cons, elem_of_nil;
      intros [[= -> -> ->] | [[=] | []]]; by exists metric_col, p, rest.
Qed.

End ForecastClaims.

(* ===================================================================== *)
(** ** The claims on concrete data *)
(* ===================================================================== *)

Section Instances.
Import Lru Api Props Claims Analytics Samples.

(** A first call, another statement in between, then the same signature
    again while the warehouse is down: the stored row comes back. *)
Lemma fetch_query_cached_memoizes_witness :
  (fetch_query_cached wh_down "SELECT 1" []
     (run [mkCall wh_two_rows "SELECT 2" []]
        (fetch_query_cached wh_one_row "SELECT 1" [] initial_world).2)).1
  = Returned [one_row].
Proof.
  destruct (fetch_query_cached_memoizes [] [mkCall wh_two_rows "SELECT 2" []]
              wh_one_row wh_down "SELECT 1" [] [one_row] eq_refl eq_refl)
    as (_ & _ & _ & Hlater).
  apply Hlater. split; [eexists; reflexivity | exact I].
Defined.

(** 513 distinct signatures: 512 entries stay, and the first one used is the
    one that left. *)
Example lru_evicts_first_of_513 :
  let w := run (distinct_calls 513) initial_world in
  (length (entries (cache w)),
   cache_get ("SELECT %s", [PInt 0]) (entries (cache w)),
   cache_get ("SELECT %s", [PInt 1]) (entries (cache w)),
   length (executed w))
  = (512, None, Some [one_row], 513).
Proof. vm_compute. reflexivity. Qed.

(** A hit refreshes an entry: signature 0 is used again before the 513th
    signature arrives, so signature 1 is the one that leaves. *)
Example lru_hit_refreshes :
  let w := run (distinct_calls 512
                ++ [mkCall wh_down "SELECT %s" [PInt 0];
                    mkCall wh_one_row "SELECT %s" [PInt 512]])
             initial_world in
  (cache_get ("SELECT %s", [PInt 0]) (entries (cache w)),
   cache_get ("SELECT %s", [PInt 1]) (entries (cache w)),
   length (executed w))
  = (Some [one_row], None, 513).
Proof. vm_compute. reflexivity. Qed.

(** A warehouse failure leaves no entry behind. *)
Example failure_is_not_cached :
  fetch_query_cached wh_down "SELECT 1" [] initial_world
  = (Raised UpstreamError,
     mkWorld (mkLru [] 0 1 false) [("SELECT 1", [])]).
Proof. reflexivity. Qed.

(** C5 as worded fails on a month-bucketed series: after January and
    February 2021 the next month start is 2021-03-01, and the forecast is
    dated 2021-02-02 and 2021-02-03. *)
Lemma forecast_month_bucketed_counterexample :
  forallb is_month_start monthly_series.*1 = true
  ∧ last monthly_series.*1 = Some (midnight 2021 2 1)
  ∧ next_period Monthly (midnight 2021 2 1) = midnight 2021 3 1
  ∧ forecast_dates monthly_series 2 = Some [midnight 2021 2 2; midnight 2021 2 3]
  ∧ fit_and_plot arima_flat monthly_series 2
    = [Fit monthly_series (1, 1, 1) 2;
       PlotlyChart [(midnight 2021 1 1, Some 10%Z, Observed);
                    (midnight 2021 2 1, Some 20%Z, Observed);
                    (midnight 2021 2 2, Some 0%Z, Forecast);
                    (midnight 2021 2 3, Some 0%Z, Forecast)]]
  ∧ bool_decide (midnight 2021 2 2 = midnight 2021 3 1) = false.
Proof. repeat split; vm_compute; reflexivity. Qed.

(** A daily series that ends on 2021-12-31: three forecast points, the first
    dated 2022-01-01. *)
Lemma forecast_periods_follow_last_day_witness :
  ∃ points : list (Point Z),
    length points = 3
    ∧ points !! 0 = Some (midnight 2022 1 1, Some 0%Z, Forecast)
    ∧ points !! 2 = Some (midnight 2022 1 3, Some 0%Z, Forecast).
Proof.
  destruct (forecast_periods_follow_last_day Z arima_flat daily_series 3
              (midnight 2021 12 31) 4%Z (λ _, Some 0%Z))
    as (points & _ & Hlen & Hnth & _).
  - reflexivity.
  - repeat constructor.
  - reflexivity.
  - exists points. split; [exact Hlen|].
    split; [exact (Hnth 0 ltac:(lia)) | exact (Hnth 2 ltac:(lia))].
Defined.



(** The forecast relies on the order of the response: with the rows out of
    order, a forecast period repeats an observed one. *)
Example unsorted_series_overlaps :
  forecast_dates [(midnight 2021 3 2, 1%Z); (midnight 2021 3 1, 2%Z)] 1
  = Some [midnight 2021 3 2].
Proof. vm_compute; reflexivity. Qed.

(** A period column that is already called [period] is read as it is, and
    the series is fitted. *)
Example lowercase_period_is_fitted :
  run_forecast iso_date whole_number arima_flat true lowercase_period_response
    "Alameda" "cases" 1
  = [Fit [(midnight 2021 3 1, 5%Z)] (1, 1, 1) 1;
     PlotlyChart [(midnight 2021 3 1, Some 5%Z, Observed);
                  (midnight 2021 3 2, Some 0%Z, Forecast)]].
Proof. vm_compute. reflexivity. Qed.

(** Where lines 75 and 76 stop the page. *)
Example prepare_exceptions :
  (run_forecast iso_date whole_number arima_flat true no_period_response
     "Alameda" "cases" 1,
   run_forecast iso_date whole_number arima_flat true two_period_response
     "Alameda" "cases" 1,
   run_forecast iso_date whole_number arima_flat true two_value_response
     "Alameda" "cases" 1)
  = ([Uncaught "KeyError"], [Uncaught "ValueError"], [Uncaught "TypeError"]).
Proof. vm_compute. reflexivity. Qed.

End Instances.

(* ===================================================================== *)
(** ** More on the endpoints: what every request does *)
(* ===================================================================== *)

Section Requests.
Import Lru Api Props Claims Routes.

Lemma truthy_blank_as_absent v : truthy (blank_as_absent v) = truthy v.
Proof. unfold blank_as_absent. by destruct (truthy v) eqn:E. Qed.

(** A raise of [fetch_query_cached] is the connector's. *)
Lemma fetch_raised wh q p w e :
  (fetch_query_cached wh q p w).1 = Raised e → e = UpstreamError ∧ wh (q, p) = None.
Proof.
  destruct (cache_get (q, p) (entries (cache w))) as [v|] eqn:Hget.
  - by rewrite (fetch_hit _ _ _ _ _ Hget).
  - destruct (wh (q, p)) as [rows|] eqn:Hwh.
    + by rewrite (fetch_miss_returned _ _ _ _ _ Hget Hwh).
    + rewrite (fetch_miss_raised _ _ _ _ Hget Hwh). simpl. by intros [= <-].
Qed.

(** The column [get_trend] reads for a metric of the enumeration. *)
Lemma select_clause_valid metric w :
  (truthy metric = false ∨ is_Some (dict_get valid_metrics (default "" metric))) →
  select_clause metric w = (Returned (trend_select metric), w).
Proof.
  unfold select_clause, trend_select, valid_metrics_at.
  destruct (truthy metric); [|done].
  intros [|[column Hc]]; [done|]. rewrite Hc.
  by destruct (str_in (default "" metric) ["cases"; "deaths"]).
Qed.

(** [get_trend], split into the statement it builds and what it does with
    the rows. *)
Lemma get_trend_by_query wh county metric interval w :
  get_trend wh county metric interval w
  = match get_trend_query county metric interval with
    | None => (Returned (RError (invalid_metric_message (default "" metric))), w)
    | Some sig =>
        (result ← fetch_query_cached wh sig.1 sig.2; mret (RList result)) w
    end.
Proof.
  unfold get_trend, get_trend_query.
  destruct (truthy metric) eqn:Hm.
  - destruct (dict_get valid_metrics (default "" metric)) as [column|] eqn:Hc.
    + rewrite bool_decide_eq_true_2 by eauto. cbn [andb negb].
      unfold mbind, M_bind. cbv beta.
      rewrite select_clause_valid by (right; rewrite Hc; eauto).
      by destruct (and_eq _ _ _).
    + rewrite bool_decide_eq_false_2 by (intros [? ?]; done). done.
  - cbn [andb]. unfold mbind, M_bind. cbv beta.
    rewrite select_clause_valid by (by left).
    by destruct (and_eq _ _ _).
Qed.

(** Common steps for the five filter endpoints: name the statement, run
    the memo, split on its outcome. *)
Ltac split_on_fetch wh w :=
  match goal with
  | |- context [let '(query, params) := ?sig in _] =>
      let q := fresh "query" in
      let p := fresh "params" in
      let Hq := fresh "Hq" in
      destruct sig as [q p] eqn:Hq; unfold mbind, M_bind, mret, M_ret, raise;
      cbv beta;
      let Hf := fresh "Hf" in
      destruct (fetch_query_cached wh q p w) as [[[|? ?]|?] ?] eqn:Hf
  end.

(** The goal is a raise of the memo call [Hf]. *)
Ltac from_fetch_raised :=
  match goal with
  | Hf : fetch_query_cached _ _ _ _ = (Raised _, _) |- _ =>
      intros [= <-]; apply (f_equal fst) in Hf; simpl in Hf;
      apply fetch_raised in Hf as [-> ?]; eauto
  end.

(** X1. Whatever the request and the state, an endpoint raises nothing of
    its own: [result[0]] and [valid_metrics[metric]] are only reached when
    they succeed, so an exception is the connector's, met on a miss for the
    statement of the request. *)
Theorem endpoints_raise_only_connector_errors wh (r : Request) w e :
  (handle wh r w).1 = Raised e →
  e = UpstreamError ∧ ∃ sig, request_query r = Some sig ∧ wh sig = None.
Proof.
  destruct r as [county | date county | date category | date county
                | county date start_date end_date
                | start_date end_date metric limit | county metric interval];
    simpl handle; simpl request_query.
  - unfold get_demographics. split_on_fetch wh w; cbn [bool_decide decide_rel];
      try (destruct (truthy county)); simpl; try discriminate; from_fetch_raised.
  - unfold get_cases. split_on_fetch wh w;
      try (destruct (truthy county && truthy date)); simpl; try discriminate; from_fetch_raised.
  - unfold get_cases_demographics. split_on_fetch wh w;
      try (destruct (truthy category && truthy date)); simpl; try discriminate; from_fetch_raised.
  - unfold get_hospitals. split_on_fetch wh w;
      try (destruct (truthy county && truthy date)); simpl; try discriminate; from_fetch_raised.
  - unfold get_cases_demographics_view. split_on_fetch wh w;
      try (destruct (truthy county && _)); simpl; try discriminate; from_fetch_raised.
  - unfold get_cases_summary_by_county. split_on_fetch wh w; simpl; try discriminate; from_fetch_raised.
  - rewrite get_trend_by_query.
    destruct (get_trend_query county metric interval) as [[q p]|]; [|done].
    unfold mbind, M_bind, mret, M_ret. cbv beta. simpl fst. simpl snd.
    destruct (fetch_query_cached wh q p w) as [[rows|e'] w'] eqn:Hf; [done|].
    simpl. from_fetch_raised.
Qed.

(** The connector is down and nothing is cached yet. *)
Lemma endpoints_raise_only_connector_errors_witness :
  UpstreamError = UpstreamError
  ∧ ∃ sig, request_query (GetCases (Some "2022-12-31") (Some "Alameda")) = Some sig
           ∧ wh_down sig = None.
Proof.
  apply (endpoints_raise_only_connector_errors wh_down
           (GetCases (Some "2022-12-31") (Some "Alameda")) initial_world).
  reflexivity.
Defined.

(** X2. For the five filter endpoints the statement text is decided by
    which filters are supplied, not by their values: two requests to the
    same endpoint with the same filters present send the same text and bind
    the same number of values. *)
Theorem filter_text_ignores_values (a b : Request) :
  same_filters a b →
  ∃ text pa pb,
    request_query a = Some (text, pa) ∧ request_query b = Some (text, pb)
    ∧ length pa = length pb.
Proof.
  intros (Hpath & Hpaste & Hlist & Hargs).
  destruct a, b; try discriminate; simpl in Hargs;
    unfold request_query, get_demographics_query, get_cases_query,
      get_cases_demographics_query, get_hospitals_query,
      get_cases_demographics_view_query, and_eq;
    injection Hargs as ?; repeat match goal with H : truthy _ = truthy _ |- _ =>
                                   rewrite <- H; clear H end;
    repeat match goal with |- context [truthy ?v] => destruct (truthy v) end;
    eexists _, _, _; (split; [reflexivity|]); (split; [reflexivity|]); reflexivity.
Qed.

(** Two dates, two counties: one text. *)
Lemma filter_text_ignores_values_witness :
  ∃ text pa pb,
    request_query (GetCases (Some "2022-12-31") (Some "Alameda")) = Some (text, pa)
    ∧ request_query (GetCases (Some "2020-03-01") (Some "Yolo' OR '1'='1"))
      = Some (text, pb)
    ∧ length pa = length pb.
Proof.
  apply (filter_text_ignores_values
           (GetCases (Some "2022-12-31") (Some "Alameda"))
           (GetCases (Some "2020-03-01") (Some "Yolo' OR '1'='1"))).
  repeat split.
Defined.

(** X3. Every statement of an endpoint other than the county summary has
    exactly as many [%s] placeholders as values in its parameter tuple. *)
Theorem placeholders_match_parameters (r : Request) text params :
  request_query r = Some (text, params) →
  pastes_metric r = false →
  placeholders text = length params.
Proof.
  destruct r as [county | date county | date category | date county
                | county date start_date end_date
                | start_date end_date metric limit | county metric interval];
    simpl pastes_metric; try discriminate; intros Hq _;
    unfold request_query, get_demographics_query, get_cases_query,
      get_cases_demographics_query, get_hospitals_query,
      get_cases_demographics_view_query, get_trend_query, and_eq in Hq.
  1-5: repeat match type of Hq with context [truthy ?v] => destruct (truthy v) end;
       injection Hq as <- <-; reflexivity.
  pose proof (date_expr_cases interval) as Hd.
  unfold trend_select in Hq.
  destruct (truthy metric) eqn:Hm.
  - destruct (dict_get valid_metrics (default "" metric)) as [column|] eqn:Hc.
    + rewrite bool_decide_eq_true_2 in Hq by eauto. cbn [andb negb] in Hq.
      pose proof (valid_metric_cases _ _ Hc) as Hcases.
      destruct (truthy county); destruct Hd as [Hd | Hd]; rewrite Hd in Hq;
        destruct Hcases as [Hv | [Hv | [Hv | Hv]]]; rewrite Hv in Hq, Hc;
        injection Hc as <-; injection Hq as <- <-; reflexivity.
    + rewrite bool_decide_eq_false_2 in Hq by (intros [? ?]; done). done.
  - cbn [andb] in Hq.
    destruct (truthy county); destruct Hd as [Hd | Hd]; rewrite Hd in Hq;
      injection Hq as <- <-; reflexivity.
Qed.

(** The view with every filter: four placeholders, four values. *)
Lemma placeholders_match_parameters_witness :
  placeholders
    "SELECT * FROM CALIFORNIA_COVID_ANALYTICS.ANALYTICS.CA_CASES_DEMOGRAPHICS_VIEW WHERE 1=1 AND AREA = %s AND DATE = %s AND DATE BETWEEN %s AND %s"
  = length [PStr "Alameda"; PStr "2022-12-31"; PStr "2022-01-01"; PStr "2022-12-31"].
Proof.
  apply (placeholders_match_parameters
           (GetCasesDemographicsView (Some "Alameda") (Some "2022-12-31")
              (Some "2022-01-01") (Some "2022-12-31"))); reflexivity.
Defined.

Lemma and_eq_blank clause v qp :
  and_eq clause (blank_as_absent v) qp = and_eq clause v qp.
Proof.
  unfold and_eq, blank_as_absent.
  destruct (truthy v) eqn:E; [by rewrite E | reflexivity].
Qed.

Lemma date_expr_blank interval :
  date_expr (blank_as_absent interval) = date_expr interval.
Proof.
  unfold date_expr, blank_as_absent, truthy.
  destruct interval as [s|]; [|reflexivity].
  destruct (String.eqb_spec s "") as [->|]; reflexivity.
Qed.

Lemma blank_as_absent_default v :
  truthy v = true → blank_as_absent v = v.
Proof. unfold blank_as_absent. by intros ->. Qed.

(** X4. A filter given as the empty string is a filter that is absent: the
    answer and the state after it are the same as for the request without
    it. For the summary endpoint this holds for the two dates; its metric is
    pasted as given. *)
Theorem blank_filters_are_absent wh (r : Request) w :
  handle wh (without_blanks r) w = handle wh r w.
Proof.
  destruct r as [county | date county | date category | date county
                | county date start_date end_date
                | start_date end_date metric limit | county metric interval];
    simpl.
  - unfold get_demographics, get_demographics_query.
    by rewrite and_eq_blank, truthy_blank_as_absent.
  - unfold get_cases, get_cases_query.
    by rewrite !and_eq_blank, !truthy_blank_as_absent.
  - unfold get_cases_demographics, get_cases_demographics_query.
    by rewrite !and_eq_blank, !truthy_blank_as_absent.
  - unfold get_hospitals, get_hospitals_query.
    by rewrite !and_eq_blank, !truthy_blank_as_absent.
  - unfold get_cases_demographics_view, get_cases_demographics_view_query.
    rewrite !and_eq_blank, !truthy_blank_as_absent.
    destruct (truthy start_date) eqn:Hs, (truthy end_date) eqn:He;
      rewrite ?(blank_as_absent_default start_date Hs),
              ?(blank_as_absent_default end_date He);
      cbn [andb]; try done.
    all: destruct (and_eq _ _ _) as [query params];
      unfold mbind, M_bind; cbv beta;
      destruct (fetch_query_cached wh query params w) as [[result|?] ?]; [|done];
      destruct (bool_decide (result = [])); [done|];
      by rewrite ?andb_false_r, ?orb_false_r.
  - unfold get_cases_summary_by_county, get_cases_summary_by_county_query.
    by rewrite !and_eq_blank.
  - rewrite !get_trend_by_query. unfold get_trend_query, trend_select.
    rewrite and_eq_blank, date_expr_blank, !truthy_blank_as_absent.
    destruct (truthy metric) eqn:Hm; [|done].
    by rewrite (blank_as_absent_default metric Hm).
Qed.

(** X5. The county summary and the trend endpoint have no test for an empty
    result: whatever rows the memo yields for the statement, none included,
    the answer is that list. *)
Theorem summary_and_trend_answer_the_list wh (r : Request) w text params rows :
  answers_list r = true →
  request_query r = Some (text, params) →
  (fetch_query_cached wh text params w).1 = Returned rows →
  (handle wh r w).1 = Returned (RList rows).
Proof.
  destruct r as [county | date county | date category | date county
                | county date start_date end_date
                | start_date end_date metric limit | county metric interval];
    simpl answers_list; try discriminate; intros _ Hq Hf;
    simpl handle; unfold request_query in Hq.
  - unfold get_cases_summary_by_county.
    assert (get_cases_summary_by_county_query start_date end_date metric limit
            = (text, params)) as -> by congruence.
    unfold mbind, M_bind, mret, M_ret. cbv beta.
    destruct (fetch_query_cached wh text params w) as [[?|?] ?]; simpl in *; congruence.
  - rewrite get_trend_by_query, Hq. simpl fst. simpl snd.
    unfold mbind, M_bind, mret, M_ret. cbv beta.
    destruct (fetch_query_cached wh text params w) as [[?|?] ?]; simpl in *; congruence.
Qed.

(** A county without trend rows: the empty list, not an error object. *)
Lemma summary_and_trend_answer_the_list_witness :
  (handle wh_no_rows (GetTrend (Some "Alpine") (Some "deaths") (Some "month"))
     initial_world).1
  = Returned (RList []).
Proof.
  apply (summary_and_trend_answer_the_list wh_no_rows
           (GetTrend (Some "Alpine") (Some "deaths") (Some "month")) initial_world
           "SELECT DATE_TRUNC('month', DATE) AS period, SUM(TOTAL_DEATHS) AS total_deaths FROM CALIFORNIA_COVID_ANALYTICS.ANALYTICS.CA_TREND_MV WHERE 1=1 AND AREA = %s"
           [PStr "Alpine"] []); reflexivity.
Defined.

(** X6. When the view statement yields at least one row, the answer is the
    first row alone exactly when a county is supplied together with an
    exact date or with a range whose two ends are the same non-empty
    string; in every other case, also for a county with a range of several
    days, it is the whole list. *)
Theorem get_cases_demographics_view_result_shape
    wh county date start_date end_date w (r : Row) (rest : ResultSet) :
  (fetch_query_cached wh
     (get_cases_demographics_view_query county date start_date end_date).1
     (get_cases_demographics_view_query county date start_date end_date).2 w).1
  = Returned (r :: rest) →
  (get_cases_demographics_view wh county date start_date end_date w).1
  = Returned
      (if truthy county
          && (truthy date
              || (truthy start_date && truthy end_date
                  && bool_decide (start_date = end_date)))
       then RRecord r else RList (r :: rest)).
Proof.
  unfold get_cases_demographics_view.
  destruct (get_cases_demographics_view_query _ _ _ _) as [query params].
  unfold mbind, M_bind, mret, M_ret. cbv beta. simpl fst. simpl snd.
  destruct (fetch_query_cached wh query params w) as [[rows|e] w']; [|done].
  simpl. intros [= ->]. simpl.
  by destruct (truthy county && _).
Qed.

(** A county and a one-day range: the first row, though two rows match. *)
Lemma get_cases_demographics_view_result_shape_witness :
  (get_cases_demographics_view wh_two_rows (Some "Alameda") None
     (Some "2022-12-31") (Some "2022-12-31") initial_world).1
  = Returned (RRecord one_row).
Proof.
  apply (get_cases_demographics_view_result_shape wh_two_rows (Some "Alameda") None
           (Some "2022-12-31") (Some "2022-12-31") initial_world one_row [one_row]).
  reflexivity.
Defined.

(** X18. A trend request that is not refused sends one of twenty fixed
    texts, and binds the county alone: metric and interval only choose among
    the texts. *)
Theorem trend_text_is_fixed county metric interval text params :
  get_trend_query county metric interval = Some (text, params) →
  text ∈ trend_texts
  ∧ params = (if truthy county then [PStr (default "" county)] else []).
Proof.
  unfold get_trend_query, and_eq, trend_select. intros Hq.
  pose proof (date_expr_cases interval) as Hd.
  destruct (truthy metric) eqn:Hm.
  - destruct (dict_get valid_metrics (default "" metric)) as [column|] eqn:Hc.
    + rewrite bool_decide_eq_true_2 in Hq by eauto. cbn [andb negb] in Hq.
      pose proof (valid_metric_cases _ _ Hc) as Hcases.
      destruct (truthy county); destruct Hd as [Hd | Hd]; rewrite Hd in Hq;
        destruct Hcases as [Hv | [Hv | [Hv | Hv]]]; rewrite Hv in Hq, Hc;
        injection Hc as <-; injection Hq as <- <-;
        (split; [apply list_elem_of_In; vm_compute; tauto | reflexivity]).
    + rewrite bool_decide_eq_false_2 in Hq by (intros [? ?]; done). done.
  - cbn [andb] in Hq.
    destruct (truthy county); destruct Hd as [Hd | Hd]; rewrite Hd in Hq;
      injection Hq as <- <-;
      (split; [apply list_elem_of_In; vm_compute; tauto | reflexivity]).
Qed.

(** Monthly deaths for one county. *)
Lemma trend_text_is_fixed_witness :
  "SELECT DATE_TRUNC('month', DATE) AS period, SUM(TOTAL_DEATHS) AS total_deaths FROM CALIFORNIA_COVID_ANALYTICS.ANALYTICS.CA_TREND_MV WHERE 1=1 AND AREA = %s"
  ∈ trend_texts.
Proof.
  refine (proj1 (trend_text_is_fixed (Some "Alpine") (Some "deaths") (Some "month")
                   _ [PStr "Alpine"] eq_refl)).
Defined.

(** X19. The entity summary and the cross-sectional view never answer with
    an empty list: a list they return has a first row. *)
Theorem lookups_never_answer_an_empty_list wh (op : Lookup) w rows :
  (lookup wh op w).1 = Returned (RList rows) →
  ∃ r rest, rows = r :: rest.
Proof.
  intros Hl. destruct rows as [|r rest]; [|eauto].
  exfalso. by eapply lookup_never_empty_list.
Qed.

(** All demographics, from a table of one row. *)
Lemma lookups_never_answer_an_empty_list_witness :
  ∃ r rest, [one_row] = r :: rest.
Proof.
  apply (lookups_never_answer_an_empty_list wh_one_row (EntitySummary None)
           initial_world [one_row]).
  reflexivity.
Defined.

End Requests.

(* ===================================================================== *)
(** ** More on the memo: failures, counters, retention *)
(* ===================================================================== *)

Section MemoMore.
Import Lru Api Props Claims.

(** X7. A warehouse failure on a miss is raised to the caller and leaves no
    entry: the next call with the same signature asks the warehouse again,
    and gets its answer. *)
Theorem failed_query_is_not_cached wh wh' q p w rows :
  cache_get (q, p) (entries (cache w)) = None →
  wh (q, p) = None →
  wh' (q, p) = Some rows →
  (fetch_query_cached wh q p w).1 = Raised UpstreamError
  ∧ entries (cache (fetch_query_cached wh q p w).2) = entries (cache w)
  ∧ (fetch_query_cached wh' q p (fetch_query_cached wh q p w).2).1 = Returned rows
  ∧ executed (fetch_query_cached wh' q p (fetch_query_cached wh q p w).2).2
    = executed w ++ [(q, p); (q, p)].
Proof.
  intros Hget Hwh Hwh'.
  rewrite (fetch_miss_raised _ _ _ _ Hget Hwh). simpl.
  match goal with
  | |- context [fetch_query_cached wh' q p ?w1] =>
      assert (cache_get (q, p) (entries (cache w1)) = None) as Hget1 by exact Hget;
      rewrite (fetch_miss_returned _ _ _ _ _ Hget1 Hwh')
  end.
  simpl. repeat split. by rewrite <- app_assoc.
Qed.

(** The connector fails once, then answers. *)
Lemma failed_query_is_not_cached_witness :
  (fetch_query_cached wh_down "SELECT 1" [] initial_world).1 = Raised UpstreamError
  ∧ entries (cache (fetch_query_cached wh_down "SELECT 1" [] initial_world).2)
    = entries (cache initial_world)
  ∧ (fetch_query_cached wh_one_row "SELECT 1" []
       (fetch_query_cached wh_down "SELECT 1" [] initial_world).2).1
    = Returned [one_row]
  ∧ executed (fetch_query_cached wh_one_row "SELECT 1" []
                (fetch_query_cached wh_down "SELECT 1" [] initial_world).2).2
    = executed initial_world ++ [("SELECT 1", []); ("SELECT 1", [])].
Proof.
  apply (failed_query_is_not_cached wh_down wh_one_row "SELECT 1" [] initial_world
           [one_row]); reflexivity.
Defined.

Lemma call_counters c w :
  hits (cache (call c w).2) + misses (cache (call c w).2)
  = S (hits (cache w) + misses (cache w))
  ∧ misses (cache (call c w).2) + length (executed w)
    = misses (cache w) + length (executed (call c w).2).
Proof.
  unfold call.
  destruct (cache_get (call_query c, call_params c) (entries (cache w)))
    as [v|] eqn:Hget.
  - rewrite (fetch_hit _ _ _ _ _ Hget). simpl. lia.
  - destruct (call_wh c (call_query c, call_params c)) as [rows|] eqn:Hwh.
    + rewrite (fetch_miss_returned _ _ _ _ _ Hget Hwh).
      destruct (full (cache w)); simpl; rewrite length_app; simpl; lia.
    + rewrite (fetch_miss_raised _ _ _ _ Hget Hwh). simpl.
      rewrite length_app. simpl. lia.
Qed.

Lemma run_counters calls : ∀ w,
  hits (cache (run calls w)) + misses (cache (run calls w))
  = length calls + (hits (cache w) + misses (cache w))
  ∧ misses (cache (run calls w)) + length (executed w)
    = misses (cache w) + length (executed (run calls w)).
Proof.
  induction calls as [|c calls IH]; intros w; simpl; [lia|].
  destruct (IH (call c w).2) as [IH1 IH2].
  destruct (call_counters c w) as [H1 H2]. lia.
Qed.

(** X8. After any sequence of calls, hits and misses add up to the number
    of calls, and the warehouse was asked once per miss: a hit costs no
    round trip, and a miss exactly one, answered or not. *)
Theorem memo_counters (calls : list Call) :
  hits (cache (run calls initial_world)) + misses (cache (run calls initial_world))
  = length calls
  ∧ length (executed (run calls initial_world))
    = misses (cache (run calls initial_world)).
Proof.
  destruct (run_counters calls initial_world) as [H1 H2]. simpl in *. lia.
Qed.

(** In the recency order, the signatures after [key] are those used since
    its last use. *)
Lemma recency_since_last_use (h0 l : list Signature) key :
  ∃ A B, recency (h0 ++ [key] ++ l) = A ++ key :: B
         ∧ NoDup B ∧ ∀ x, x ∈ B → x ∈ l ∧ x ≠ key.
Proof.
  induction l as [|x l IH] using rev_ind.
  - rewrite app_nil_r, recency_snoc. unfold touch.
    exists (filter (λ k', k' ≠ key) (recency h0)), [].
    split; [done|]. split; [apply NoDup_nil_2|]. intros x Hx. by apply elem_of_nil in Hx.
  - destruct IH as (A & B & HR & HB & Hin).
    rewrite !app_assoc, recency_snoc, <- !app_assoc, HR. unfold touch.
    rewrite filter_app.
    destruct (decide (x = key)) as [->|Hne].
    + rewrite filter_cons_False by (simpl; tauto).
      exists (filter (λ k', k' ≠ key) A ++ filter (λ k', k' ≠ key) B), [].
      split; [by rewrite <- app_assoc|].
      split; [apply NoDup_nil_2|]. intros y Hy. by apply elem_of_nil in Hy.
    + rewrite filter_cons_True by done.
      exists (filter (λ k', k' ≠ x) A), (filter (λ k', k' ≠ x) B ++ [x]).
      split; [by rewrite <- app_assoc|]. split.
      * apply NoDup_app. split; [by apply NoDup_filter|].
        split; [|apply NoDup_singleton].
        intros y [Hy _]%list_elem_of_filter Hy'%list_elem_of_singleton. done.
      * intros y [[_ Hy]%list_elem_of_filter | ->%list_elem_of_singleton]%elem_of_app.
        -- destruct (Hin y Hy). split; [apply elem_of_app; by left | done].
        -- split; [apply elem_of_app; right; by apply list_elem_of_singleton | done].
Qed.

Lemma lastn_keeps {T} n (A B : list T) x :
  S (length B) ≤ n → x ∈ lastn n (A ++ x :: B).
Proof.
  intros Hn. unfold lastn. rewrite length_app. simpl.
  rewrite drop_app_le by lia. apply elem_of_app. right. left.
Qed.

Lemma served_keys calls : ∀ w x,
  x ∈ served calls w → ∃ c, c ∈ calls ∧ call_key c = x.
Proof.
  induction calls as [|c calls IH]; intros w x; simpl.
  - intros H. by apply elem_of_nil in H.
  - destruct (call c w).1.
    + intros [-> | H]%elem_of_cons.
      * exists c. split; [left | done].
      * destruct (IH _ _ H) as (c' & ? & ?). exists c'. split; [by right | done].
    + intros H. destruct (IH _ _ H) as (c' & ? & ?). exists c'. split; [by right | done].
Qed.

(** A signature used at most [maxsize - 1] distinct signatures ago is still
    in the memo. *)
Lemma retained_in_state key (others : list Signature) h0 l w :
  tracks maxsize (h0 ++ [key] ++ l) (cache w) →
  (∀ x, x ∈ l → x = key ∨ x ∈ others) →
  length others < maxsize →
  is_Some (cache_get key (entries (cache w))).
Proof.
  intros [_ Hkeys] Hl Hlen. apply cache_get_is_Some.
  fold (keys (cache w)). rewrite Hkeys.
  destruct (recency_since_last_use h0 l key) as (A & B & -> & HB & Hin).
  apply lastn_keeps.
  assert (B ⊆+ others) as Hsub.
  { apply NoDup_submseteq; [done|]. intros x Hx.
    destruct (Hin x Hx) as [Hxl Hne]. destruct (Hl x Hxl); done. }
  apply submseteq_length in Hsub. lia.
Qed.

Lemma stays_cached_bounded key (others : list Signature) later : ∀ h0 l w,
  tracks maxsize (h0 ++ [key] ++ l) (cache w) →
  (∀ x, x ∈ l → x = key ∨ x ∈ others) →
  (∀ c, c ∈ later → call_key c = key ∨ call_key c ∈ others) →
  length others < maxsize →
  stays_cached key later w.
Proof.
  induction later as [|c later IH]; intros h0 l w Ht Hl Hlater Hlen; simpl; [done|].
  pose proof (call_tracks _ c w Ht) as Ht'.
  rewrite <- !app_assoc in Ht'.
  assert (∀ x, x ∈ l ++ served [c] w → x = key ∨ x ∈ others) as Hl'.
  { intros x [Hx | Hx]%elem_of_app; [by apply Hl|].
    apply served_keys in Hx as (c' & ->%list_elem_of_singleton & <-).
    apply Hlater. left. }
  split.
  - by apply (retained_in_state key others h0 (l ++ served [c] w)).
  - apply (IH h0 (l ++ served [c] w)); try done.
    intros c' Hc'. apply Hlater. by right.
Qed.

(** An answered call leaves its rows under its signature. *)
Lemma call_returned_stored c w h rows :
  tracks maxsize h (cache w) →
  (call c w).1 = Returned rows →
  cache_get (call_key c) (entries (cache (call c w).2)) = Some rows
  ∧ served [c] w = [call_key c].
Proof.
  intros [(Hnd & _) _] Hret. unfold keys in Hnd. simpl served. rewrite Hret.
  split; [|done].
  destruct (call_cases c w)
    as [(v & Hget & Hr & -> & _)
       |[(_ & _ & Hr & _)
        |(rows' & Hget & _ & Hr & _ & [(_ & -> & _)|(_ & -> & _)])]];
    rewrite Hr in Hret; try discriminate; injection Hret as ->.
  - apply cache_get_snoc_eq. rewrite unlink_keys by done.
    intros [? _]%list_elem_of_filter. done.
  - apply cache_get_snoc_eq. apply cache_get_None in Hget.
    destruct (entries (cache w)) as [|e l]; [done|].
    simpl in *. intros ?. apply Hget. by right.
  - apply cache_get_snoc_eq. by apply cache_get_None.
Qed.

(** X9. Once a call for a signature has been answered, that signature stays
    in the memo through any later calls that use at most 511 other
    signatures between them, however many calls they are: the next call for
    it returns the same rows and asks the warehouse nothing. *)
Theorem recently_used_entry_is_kept
    (before later : list Call) (others : list Signature)
    (wh wh' : Warehouse) (q : string) (p : list Param) (rows : ResultSet) :
  (fetch_query_cached wh q p (run before initial_world)).1 = Returned rows →
  length others < 512 →
  (∀ c, c ∈ later → call_key c = (q, p) ∨ call_key c ∈ others) →
  (fetch_query_cached wh' q p
     (run later (fetch_query_cached wh q p (run before initial_world)).2)).1
  = Returned rows
  ∧ executed
      (fetch_query_cached wh' q p
         (run later (fetch_query_cached wh q p (run before initial_world)).2)).2
    = executed (run later (fetch_query_cached wh q p (run before initial_world)).2).
Proof.
  intros Hret Hlen Hlater.
  pose proof (run_tracks before [] initial_world initial_tracks) as Ht.
  simpl in Ht. set (w := run before initial_world) in *.
  pose proof (call_tracks _ (mkCall wh q p) w Ht) as Ht1.
  destruct (call_returned_stored (mkCall wh q p) w _ rows Ht Hret) as [Hstored Hserved].
  rewrite Hserved in Ht1.
  change (call (mkCall wh q p) w) with (fetch_query_cached wh q p w) in *.
  change (call_key (mkCall wh q p)) with (q, p) in *.
  set (w1 := (fetch_query_cached wh q p w).2) in *.
  assert (stays_cached (q, p) later w1) as Hstay.
  { apply (stays_cached_bounded (q, p) others later (served before initial_world) [] w1).
    - by rewrite app_nil_r.
    - intros x Hx. by apply elem_of_nil in Hx.
    - done.
    - exact Hlen. }
  pose proof (run_keeps_value _ _ _ _ _ Ht1 Hstored Hstay) as Hlater_get.
  by rewrite (fetch_hit _ _ _ _ _ Hlater_get).
Qed.

(** Calls that alternate between two other statements, and one for the
    signature itself. *)
Lemma recently_used_entry_is_kept_witness :
  (fetch_query_cached wh_down "SELECT 1" []
     (run [mkCall wh_two_rows "SELECT 2" []; mkCall wh_two_rows "SELECT 3" [];
           mkCall wh_down "SELECT 1" []; mkCall wh_down "SELECT 2" []]
        (fetch_query_cached wh_one_row "SELECT 1" [] initial_world).2)).1
  = Returned [one_row].
Proof.
  refine (proj1 (recently_used_entry_is_kept []
                   [mkCall wh_two_rows "SELECT 2" []; mkCall wh_two_rows "SELECT 3" [];
                    mkCall wh_down "SELECT 1" []; mkCall wh_down "SELECT 2" []]
                   [("SELECT 2", []); ("SELECT 3", [])]
                   wh_one_row wh_down "SELECT 1" [] [one_row] eq_refl _ _)).
  - simpl. lia.
  - intros c Hc. rewrite !elem_of_cons, elem_of_nil in Hc.
    destruct Hc as [-> | [-> | [-> | [-> | []]]]]; simpl;
      rewrite !elem_of_cons; tauto.
Defined.

End MemoMore.

(* ===================================================================== *)
(** ** Rows of a cursor *)
(* ===================================================================== *)

Section CursorRows.
Import Api Cursor.

Lemma dict_get_dict_set {A} (d : list (string * A)) k v k' :
  dict_get (dict_set d k v) k' = if String.eqb k k' then Some v else dict_get d k'.
Proof.
  induction d as [|[k0 v0] d IH]; cbn -[String.eqb].
  - by destruct (String.eqb k k').
  - destruct (String.eqb_spec k0 k) as [->|Hne]; cbn -[String.eqb].
    + by destruct (String.eqb k k').
    + destruct (String.eqb_spec k0 k') as [->|Hne'].
      * destruct (String.eqb_spec k k'); [congruence | done].
      * exact IH.
Qed.

Lemma dict_get_snoc {A} (d : list (string * A)) k v k' :
  dict_get (d ++ [(k, v)]) k'
  = match dict_get d k' with
    | Some x => Some x
    | None => if String.eqb k k' then Some v else None
    end.
Proof.
  induction d as [|[k0 v0] d IH]; cbn -[String.eqb]; [done|].
  by destruct (String.eqb k0 k').
Qed.

Lemma dict_of_snoc {A} (pairs : list (string * A)) k v :
  dict_of (pairs ++ [(k, v)]) = dict_set (dict_of pairs) k v.
Proof. unfold dict_of. by rewrite foldl_snoc. Qed.

Lemma dict_set_fresh {A} (d : list (string * A)) k v :
  k ∉ d.*1 → dict_set d k v = d ++ [(k, v)].
Proof.
  induction d as [|[k0 v0] d IH]; cbn -[String.eqb]; [done|].
  intros [Hne Hn]%not_elem_of_cons.
  destruct (String.eqb_spec k0 k) as [->|_]; [done|]. by rewrite IH.
Qed.

Lemma dict_of_NoDup {A} (pairs : list (string * A)) :
  NoDup pairs.*1 → dict_of pairs = pairs.
Proof.
  induction pairs as [|[k v] pairs IH] using rev_ind; [done|].
  rewrite fmap_app. intros (Hnd & Hk & _)%NoDup_app.
  rewrite dict_of_snoc, IH by done. apply dict_set_fresh.
  intros Hin. apply (Hk k Hin). simpl. left.
Qed.

Lemma zip_keys_NoDup {A} (columns : list string) (row : list A) :
  NoDup columns → NoDup (zip columns row).*1.
Proof.
  intros Hnd. revert row.
  induction Hnd as [|c columns Hc Hnd IH]; intros [|v row]; simpl;
    try apply NoDup_nil_2.
  apply NoDup_cons. split; [|apply IH].
  intros Hin. apply Hc.
  apply list_elem_of_fmap in Hin as ([c' v'] & -> & Hin). simpl.
  apply elem_of_zip_l in Hin. done.
Qed.

Lemma dict_get_zip {A} (columns : list string) (row : list A) j c v :
  NoDup columns → columns !! j = Some c → row !! j = Some v →
  dict_get (zip columns row) c = Some v.
Proof.
  intros Hnd. revert row j.
  induction Hnd as [|c0 columns Hc Hnd IH]; intros [|v0 row] [|j]; simpl;
    try done.
  - intros [= ->] [= ->]. by rewrite String.eqb_refl.
  - intros Hj Hv. destruct (String.eqb_spec c0 c) as [->|_]; [|by eapply IH].
    exfalso. apply Hc. by eapply list_elem_of_lookup_2.
Qed.

Lemma lookup_map_bind {A B C} (g : A → B) (l : list A) i a (k : B → option C) :
  l !! i = Some a → map g l !! i ≫= k = k (g a).
Proof. intros H. by rewrite list_lookup_fmap, H. Qed.

(** X10. When the column names of the cursor are distinct, every fetched
    tuple comes back as the list of its (column, value) pairs in column
    order, and looking a column up in a row gives the value at the column's
    position in the tuple. *)
Theorem fetch_query_rows_by_column (connector : Connector) sig (f : Fetched) w :
  connector sig = Some f →
  NoDup (description f) →
  (fetch_query (warehouse_of connector) sig w).1
  = Returned (map (zip (description f)) (fetchall f))
  ∧ ∀ i j row c v,
      fetchall f !! i = Some row →
      description f !! j = Some c →
      row !! j = Some v →
      rows_of f !! i ≫= (λ r, dict_get r c) = Some v.
Proof.
  intros Hc Hnd.
  assert (rows_of f = map (zip (description f)) (fetchall f)) as Hrows.
  { unfold rows_of. apply map_ext. intros row.
    apply dict_of_NoDup. by apply zip_keys_NoDup. }
  split.
  - unfold fetch_query, warehouse_of. rewrite Hc. simpl. by rewrite Hrows.
  - intros i j row c v Hi Hj Hv. rewrite Hrows.
    etrans; [exact (lookup_map_bind _ _ _ _ _ Hi)|]. by eapply dict_get_zip.
Qed.

(** X11. When a column name occurs more than once in the cursor (as with
    [SELECT *] over same-named columns), the row keeps one entry for it,
    holding the value of its last occurrence. *)
Theorem repeated_column_keeps_last_value {A} (pairs : list (string * A)) k :
  dict_get (dict_of pairs) k = dict_get (reverse pairs) k
  ∧ NoDup (dict_of pairs).*1.
Proof.
  induction pairs as [|[k0 v0] pairs [IH1 IH2]] using rev_ind.
  - split; [done | apply NoDup_nil_2].
  - rewrite dict_of_snoc, reverse_snoc. split.
    + rewrite dict_get_dict_set. cbn -[String.eqb].
      destruct (String.eqb k0 k); [done | exact IH1].
    + clear IH1. revert IH2. generalize (dict_of pairs). intros d.
      induction d as [|[k1 v1] d IHd]; cbn -[String.eqb].
      * intros _. apply NoDup_singleton.
      * intros [Hk1 Hnd]%NoDup_cons.
        destruct (String.eqb_spec k1 k0) as [->|Hne]; simpl.
        -- by apply NoDup_cons.
        -- apply NoDup_cons. split; [|by apply IHd].
           intros Hin. apply Hk1.
           apply list_elem_of_fmap in Hin as ([k2 v2] & -> & Hin). simpl.
           clear -Hin Hne. induction d as [|[k3 v3] d IHd]; cbn -[String.eqb] in *.
           ++ apply list_elem_of_singleton in Hin. congruence.
           ++ destruct (String.eqb_spec k3 k0) as [->|?].
              ** apply elem_of_cons in Hin as [[= -> ->] | Hin]; [left | right].
                 apply list_elem_of_fmap. by exists (k2, v2).
              ** apply elem_of_cons in Hin as [[= -> ->] | Hin]; [left | right].
                 by apply IHd.
Qed.

End CursorRows.

(* ===================================================================== *)
(** ** The page and the API together *)
(* ===================================================================== *)

Section Page.
Import Lru Api Props Claims Routes Analytics Streamlit.

(** What [requests.get] sees, by the outcome of the memo call, for an
    endpoint that answers with the list. *)
Lemma http_get_list wh (r : Request) text params w :
  answers_list r = true →
  request_query r = Some (text, params) →
  http_get wh r w
  = match fetch_query_cached wh text params w with
    | (Returned rows, w') => (mkHttp 200 (Some (RList rows)), w')
    | (Raised _, w') => (mkHttp 500 None, w')
    end.
Proof.
  intros Hl Hq. unfold http_get.
  destruct r as [county | date county | date category | date county
                | county date start_date end_date
                | start_date end_date metric limit | county metric interval];
    simpl in Hl; try discriminate; simpl handle; unfold request_query in Hq.
  - unfold get_cases_summary_by_county.
    assert (get_cases_summary_by_county_query start_date end_date metric limit
            = (text, params)) as -> by congruence.
    unfold mbind, M_bind, mret, M_ret. cbv beta.
    by destruct (fetch_query_cached wh text params w) as [[?|?] ?].
  - rewrite get_trend_by_query, Hq. simpl fst. simpl snd.
    unfold mbind, M_bind, mret, M_ret. cbv beta.
    by destruct (fetch_query_cached wh text params w) as [[?|?] ?].
Qed.

(** What [requests.get] sees for a lookup without filters: the list, the
    error object when there are no rows, or a failure. *)
Lemma http_get_unfiltered wh (op : Lookup) w :
  op = EntitySummary None ∨ op = CrossSectionalView None None None None →
  http_get wh (match op with
               | EntitySummary c => GetDemographics c
               | CrossSectionalView c d s e => GetCasesDemographicsView c d s e
               end) w
  = match fetch_query_cached wh (lookup_query op).1 (lookup_query op).2 w with
    | (Returned [], w') => (mkHttp 200 (Some (RError (not_found_message op))), w')
    | (Returned (r :: rest), w') => (mkHttp 200 (Some (RList (r :: rest))), w')
    | (Raised _, w') => (mkHttp 500 None, w')
    end.
Proof.
  intros [-> | ->]; unfold http_get; simpl handle;
    [unfold get_demographics | unfold get_cases_demographics_view];
    simpl lookup_query;
    destruct (_ : Signature) as [query params];
    unfold mbind, M_bind, mret, M_ret; cbv beta; simpl fst; simpl snd;
    by destruct (fetch_query_cached wh query params w) as [[[|r rest]|e] w'].
Qed.

Lemma county_names_of_column rows :
  Forall (λ row, is_Some (dict_get row "COUNTY_NAME")) rows →
  county_names_of rows = inr (map (cell "COUNTY_NAME") rows).
Proof.
  induction 1 as [|row rows [name Hn] _ IH]; [done|].
  cbn -[String.eqb dict_get]. rewrite Hn, IH. unfold cell. by rewrite Hn.
Qed.

(** X14. When the demographics statement yields rows that all carry a
    county name, [get_counties] is the [COUNTY_NAME] column in row order,
    and that list is what every later run returns, without a request and
    whatever the warehouse holds by then. *)
Theorem get_counties_lists_county_names wh w (r : Row) (rest : ResultSet) :
  (fetch_query_cached wh (get_demographics_query None).1
     (get_demographics_query None).2 w).1 = Returned (r :: rest) →
  Forall (λ row, is_Some (dict_get row "COUNTY_NAME")) (r :: rest) →
  (get_counties wh None w).1
  = (inr (map (cell "COUNTY_NAME") (r :: rest)),
     Some (map (cell "COUNTY_NAME") (r :: rest)))
  ∧ ∀ wh' w', get_counties wh' (get_counties wh None w).1.2 w'
              = (inr (map (cell "COUNTY_NAME") (r :: rest)),
                 Some (map (cell "COUNTY_NAME") (r :: rest)), w').
Proof.
  intros Hf Hnames.
  assert ((get_counties wh None w).1
          = (inr (map (cell "COUNTY_NAME") (r :: rest)),
             Some (map (cell "COUNTY_NAME") (r :: rest)))) as Hfirst.
  { unfold get_counties.
    rewrite (http_get_unfiltered wh (EntitySummary None) w (or_introl eq_refl)).
    simpl lookup_query.
    destruct (fetch_query_cached wh _ _ w) as [[rows|e] w']; simpl in Hf; [|done].
    injection Hf as ->. unfold county_names. simpl ok. simpl json. cbv iota.
    by rewrite (county_names_of_column _ Hnames). }
  split; [done|]. intros wh' w'. by rewrite Hfirst.
Qed.

(** Two counties. *)
Lemma get_counties_lists_county_names_witness :
  (get_counties wh_two_counties None initial_world).1
  = (inr [CStr "Alameda"; CStr "Yolo"], Some [CStr "Alameda"; CStr "Yolo"]).
Proof.
  refine (proj1 (get_counties_lists_county_names wh_two_counties initial_world
                   [("COUNTY_NAME", CStr "Alameda")] [[("COUNTY_NAME", CStr "Yolo")]]
                   eq_refl _)).
  repeat constructor; eexists; reflexivity.
Defined.

(** X15. When the demographics request fails, [get_counties] is the empty
    list, and the empty list is remembered: later runs return it without a
    request, also once the warehouse answers again. When the table is empty
    the endpoint answers with its error object, and the page stops on a
    TypeError with nothing remembered. *)
Theorem get_counties_without_rows wh w :
  (fetch_query_cached wh (get_demographics_query None).1
     (get_demographics_query None).2 w).1 ∈ [Returned []; Raised UpstreamError] →
  (get_counties wh None w).1
  = match (fetch_query_cached wh (get_demographics_query None).1
             (get_demographics_query None).2 w).1 with
    | Returned _ => (inl "TypeError", None)
    | Raised _ => (inr [], Some [])
    end
  ∧ ∀ wh' w', get_counties wh' (Some []) w' = (inr [], Some [], w').
Proof.
  intros Hf. split; [|done]. unfold get_counties.
  rewrite (http_get_unfiltered wh (EntitySummary None) w (or_introl eq_refl)).
  simpl lookup_query.
  destruct (fetch_query_cached wh _ _ w) as [[rows|e] w']; simpl in Hf |- *.
  - rewrite !elem_of_cons, elem_of_nil in Hf.
    destruct Hf as [[= ->] | [? | []]]; done.
  - done.
Qed.

(** The warehouse is down when the page first runs. *)
Lemma get_counties_without_rows_witness :
  (get_counties wh_down None initial_world).1 = (inr [], Some [])
  ∧ ∀ wh' w', get_counties wh' (Some []) w' = (inr [], Some [], w').
Proof.
  apply (get_counties_without_rows wh_down initial_world).
  right. left.
Defined.

Variable Value : Type.
Variable to_datetime : Cell → option Timestamp.
Variable to_numeric : Cell → option Value.
Variable ARIMA : list (Timestamp * Value) → nat * nat * nat → nat →
                 string + (Timestamp → option Value).

Lemma metrics_cases m :
  m ∈ metrics → m = "cases" ∨ m = "deaths" ∨ m = "cases_p_k" ∨ m = "deaths_p_k".
Proof. unfold metrics. rewrite !elem_of_cons, elem_of_nil. tauto. Qed.

Lemma truthy_Some s : s ≠ "" → truthy (Some s) = true.
Proof. intros H. simpl. by destruct (String.eqb_spec s ""). Qed.

(** The statement of the forecasting request. *)
Lemma trend_request_query county metric :
  metric ∈ metrics → county ≠ "" →
  get_trend_query (Some county) (Some metric) (Some "day")
  = Some ("SELECT DATE AS period, " +:+ trend_select (Some metric)
          +:+ " FROM CALIFORNIA_COVID_ANALYTICS.ANALYTICS.CA_TREND_MV WHERE 1=1"
          +:+ " AND AREA = %s",
          [PStr county]).
Proof.
  intros Hm Hc. unfold get_trend_query, and_eq.
  rewrite (truthy_Some county Hc).
  apply metrics_cases in Hm as [-> | [-> | [-> | ->]]]; reflexivity.
Qed.

(** The forecasting button, by the outcome of the memo call. *)
Lemma forecast_click_by_fetch wh county metric h w :
  metric ∈ metrics → county ≠ "" →
  forecast_click to_datetime to_numeric ARIMA wh county metric h w
  = match fetch_query_cached wh
            ("SELECT DATE AS period, " +:+ trend_select (Some metric)
             +:+ " FROM CALIFORNIA_COVID_ANALYTICS.ANALYTICS.CA_TREND_MV WHERE 1=1"
             +:+ " AND AREA = %s")
            [PStr county] w with
    | (Returned rows, w') =>
        (run_forecast to_datetime to_numeric ARIMA true rows county metric h, w')
    | (Raised _, w') =>
        ([StWarning "No trend data available for this county/metric."], w')
    end.
Proof.
  intros Hm Hc. unfold forecast_click, trend_request.
  rewrite (http_get_list wh (GetTrend (Some county) (Some metric) (Some "day"))
             _ _ w eq_refl (trend_request_query _ _ Hm Hc)).
  by destruct (fetch_query_cached wh _ _ w) as [[rows|e] w'].
Qed.

(** X12. Every metric the forecasting page offers is accepted by the trend
    endpoint, and the column the page reads is the column the endpoint
    aggregates. The request is the daily statement with the county bound;
    the page works on the rows of the memo for that statement, or shows the
    no-data warning when the warehouse call failed. *)
Theorem forecast_click_reads_daily_trend wh (county metric : string) h w :
  metric ∈ metrics →
  county ≠ "" →
  dict_get metric_map metric = dict_get valid_metrics metric
  ∧ is_Some (dict_get valid_metrics metric)
  ∧ forecast_click to_datetime to_numeric ARIMA wh county metric h w
    = match fetch_query_cached wh
              ("SELECT DATE AS period, " +:+ trend_select (Some metric)
               +:+ " FROM CALIFORNIA_COVID_ANALYTICS.ANALYTICS.CA_TREND_MV WHERE 1=1"
               +:+ " AND AREA = %s")
              [PStr county] w with
      | (Returned rows, w') =>
          (run_forecast to_datetime to_numeric ARIMA true rows county metric h, w')
      | (Raised _, w') =>
          ([StWarning "No trend data available for this county/metric."], w')
      end.
Proof.
  intros Hm Hc. split; [|split].
  - apply metrics_cases in Hm as [-> | [-> | [-> | ->]]]; reflexivity.
  - apply metrics_cases in Hm as [-> | [-> | [-> | ->]]]; eexists; reflexivity.
  - by apply forecast_click_by_fetch.
Qed.

(** X13. When the memo has no rows for the county, or the warehouse call
    fails, the forecasting page shows the no-data warning and nothing else:
    no model is fitted. *)
Theorem forecast_click_without_rows wh (county metric : string) h w :
  metric ∈ metrics →
  county ≠ "" →
  (fetch_query_cached wh
     ("SELECT DATE AS period, " +:+ trend_select (Some metric)
      +:+ " FROM CALIFORNIA_COVID_ANALYTICS.ANALYTICS.CA_TREND_MV WHERE 1=1"
      +:+ " AND AREA = %s")
     [PStr county] w).1 ∈ [Returned []; Raised UpstreamError] →
  (forecast_click to_datetime to_numeric ARIMA wh county metric h w).1
  = [StWarning "No trend data available for this county/metric."].
Proof.
  intros Hm Hc Hf. rewrite (forecast_click_by_fetch _ _ _ _ _ Hm Hc).
  destruct (fetch_query_cached wh _ _ w) as [[rows|e] w']; simpl in *.
  - rewrite !elem_of_cons, elem_of_nil in Hf.
    destruct Hf as [[= ->] | [? | []]]; done.
  - done.
Qed.

Variable Matrix : Type.
Variable StandardScaler : list (list Cell) → string + Matrix.
Variable KMeans : nat → nat → Matrix → string + list nat.


Lemma cluster_frame_complete selected_features rows :
  Forall (λ p : Cell * list Cell,
            Forall (λ c, isna c = false) p.2
            ∧ length p.2 = length selected_features)
    (cluster_frame selected_features rows).
Proof.
  unfold cluster_frame. apply Forall_forall. intros p Hp.
  apply list_elem_of_filter in Hp as [Hc Hp].
  apply list_elem_of_fmap in Hp as (r & -> & _). simpl in *. split.
  - unfold complete in Hc. rewrite forallb_forall in Hc.
    apply Forall_forall. intros c Hin. apply list_elem_of_In, Hc in Hin.
    by destruct (isna c).
  - unfold features_of. by rewrite length_map.
Qed.


End Page.

(* ===================================================================== *)
(** ** The page on concrete data *)
(* ===================================================================== *)

Section PageInstances.
Import Lru Api Props Claims Routes Cursor Analytics Samples Streamlit.

(** One tuple under two distinct column names. *)
Lemma fetch_query_rows_by_column_witness :
  (fetch_query (warehouse_of connector_two_columns) ("SELECT 1", []) initial_world).1
  = Returned [[("AREA", CStr "Alameda"); ("CASES", CNum 7 0)]].
Proof.
  refine (proj1 (fetch_query_rows_by_column connector_two_columns ("SELECT 1", [])
                   two_columns initial_world eq_refl _)).
  apply (bool_decide_unpack _). vm_compute. exact I.
Defined.

(** Cases for Alameda, two days ahead, from a trend of one row. *)
Lemma forecast_click_reads_daily_trend_witness :
  (forecast_click iso_date whole_number arima_flat wh_trend "Alameda" "cases" 2
     initial_world).1
  = [Fit [(midnight 2021 3 1, 5%Z)] (1, 1, 1) 2;
     PlotlyChart [(midnight 2021 3 1, Some 5%Z, Observed);
                  (midnight 2021 3 2, Some 0%Z, Forecast);
                  (midnight 2021 3 3, Some 0%Z, Forecast)]].
Proof.
  exact (f_equal fst
           (proj2 (proj2 (forecast_click_reads_daily_trend Z iso_date whole_number
                            arima_flat wh_trend "Alameda" "cases" 2 initial_world
                            ltac:(left) ltac:(discriminate))))).
Defined.

(** A county without trend rows. *)
Lemma forecast_click_without_rows_witness :
  (forecast_click iso_date whole_number arima_flat wh_no_rows "Alpine" "deaths" 14
     initial_world).1
  = [StWarning "No trend data available for this county/metric."].
Proof.
  apply (forecast_click_without_rows Z iso_date whole_number arima_flat wh_no_rows
           "Alpine" "deaths" 14 initial_world).
  - right. left.
  - discriminate.
  - left.
Defined.



End PageInstances.
